(** * SafePythonInterpreter: the restricted code-execution sandbox of open-creator

    A shallow embedding of [creator/code_interpreter/safe_python.py].

    The Python runtime the interpreter is written against (the [ast] module,
    [compile], [exec], [eval], [traceback]) is an interface, [PyRuntime]; the
    methods of [SafePythonInterpreter] are functions over any implementation
    of it.  [MiniPy] implements the interface for a small fragment of Python,
    so that the calls quoted in the specification can be run. *)

From Stdlib Require Import ZArith NArith String Ascii List Lia.
From stdpp Require Import base option gmap strings list pretty.

Set Warnings "-register-all".
Local Open Scope string_scope.

(** ** Strings *)

(** The line feed character, as a one-character string. *)
Definition nl : string := String (ascii_of_nat 10) EmptyString.

(** The double quote and the backslash, as one-character strings. *)
Definition dq : string := String (ascii_of_nat 34) EmptyString.
Definition bs : string := String (ascii_of_nat 92) EmptyString.

(** A hexadecimal digit, in lower case. *)
Definition hex_digit (n : nat) : ascii :=
  if (n <? 10)%nat then ascii_of_nat (48 + n) else ascii_of_nat (87 + n).

(** [c in s]. *)
Fixpoint has_char (c : ascii) (s : string) : bool :=
  match s with
  | EmptyString => false
  | String c' s' => Ascii.eqb c c' || has_char c s'
  end.

(** [needle in hay] on Python strings: [needle] occurs in [hay] as a
    contiguous substring. *)
Fixpoint str_in (needle hay : string) : bool :=
  String.prefix needle hay ||
  match hay with
  | EmptyString => false
  | String _ hay' => str_in needle hay'
  end.

(** [sep.join(parts)]. *)
Fixpoint join (sep : string) (parts : list string) : string :=
  match parts with
  | [] => ""
  | [p] => p
  | p :: rest => p ++ sep ++ join sep rest
  end.

(** ** Runtime values *)

(** An exception instance together with its traceback, by what
    [traceback.format_exception] prints of it: the class name and the
    message of the final line, and the lines between the header and the
    final line (the frames and, for a syntax error, the place in the
    source).  Whether the class derives from [Exception] or from
    [BaseException] only ([SystemExit], [KeyboardInterrupt],
    [GeneratorExit]) is told by the way the code that raised it ends,
    [Raised] or [Exited]. *)
Record exception : Type := Exc {
  exc_class : string;
  exc_msg : string;
  exc_tb : string
}.

(** The Python objects the model distinguishes.  [VExcInfo e] is a triple
    [(type(e), e, e.__traceback__)], as the interpreter stores;
    [VObject c r] is an object of another kind (a function, a module, an
    instance), which is true and is not such a triple, with the name of
    its class and its [str()]. *)
Inductive value : Type :=
| VNone
| VBool (b : bool)
| VInt (z : Z)
| VStr (s : string)
| VExcInfo (e : exception)
| VObject (cls : string) (repr : string).

#[global] Instance exception_eq_dec : EqDecision exception.
Proof. solve_decision. Defined.

#[global] Instance value_eq_dec : EqDecision value.
Proof. solve_decision. Defined.

(** Truth value of an object, as tested by [if x:]. *)
Definition truthy (v : value) : bool :=
  match v with
  | VNone => false
  | VBool b => b
  | VInt z => negb (Z.eqb z 0)
  | VStr s => negb (String.eqb s "")
  | VExcInfo _ => true
  | VObject _ _ => true
  end.

(** [str(v)].  The address Python prints for a traceback object is left
    out. *)
Definition py_str (v : value) : string :=
  match v with
  | VNone => "None"
  | VBool true => "True"
  | VBool false => "False"
  | VInt z => pretty z
  | VStr s => s
  | VExcInfo e =>
      "(<class '" ++ exc_class e ++ "'>, " ++ exc_class e ++ "('" ++ exc_msg e
      ++ "'), <traceback object>)"
  | VObject _ r => r
  end.

(** [self.namespace]: a [dict] from identifiers to objects. *)
Abbreviation namespace := (gmap string value).

(** ["".join(traceback.format_exception(type(e), e, e.__traceback__))]. *)
Definition format_exception (e : exception) : string :=
  "Traceback (most recent call last):" ++ nl ++ exc_tb e ++
  (if String.eqb (exc_msg e) "" then exc_class e
   else exc_class e ++ ": " ++ exc_msg e) ++ nl.

(** ** Syntax trees *)

Inductive constant : Type :=
| CNone
| CBool (b : bool)
| CInt (n : N)
| CStr (s : string).

Inductive operator : Type := Add | Sub | Mult | FloorDiv.

(** Nodes of the [ast] module.  The classes the fragment evaluates have a
    constructor each; [NOther] is a node of any other class, with its class
    name, its source text and its child nodes.  The leaf nodes that carry no
    expression ([Load], [Store], operators, [alias]) are not represented:
    they have no children and are neither calls nor definitions, so leaving
    them out does not change the order in which [ast.walk] meets the others.
    Of a function or class definition the body is kept; its arguments,
    bases and decorators are children that [ast.walk] yields after the
    definition itself. *)
Inductive node : Type :=
| NModule (body : list node)
| NExpr (value : node)
| NAssign (target : node) (value : node)
| NImport (names : list string)
| NImportFrom (module : string) (names : list string)
| NFunctionDef (name : string) (body : list node)
| NClassDef (name : string) (body : list node)
| NWhile (test : node) (body : list node)
| NRaise (exc : node)
| NPass
| NCall (func : node) (args : list node)
| NAttribute (value : node) (attr : string)
| NName (id : string)
| NConstant (c : constant)
| NBinOp (left : node) (op : operator) (right : node)
| NOther (cls : string) (text : string) (children : list node).

(** [node.__class__.__name__]. *)
Definition class_name (n : node) : string :=
  match n with
  | NModule _ => "Module"
  | NExpr _ => "Expr"
  | NAssign _ _ => "Assign"
  | NImport _ => "Import"
  | NImportFrom _ _ => "ImportFrom"
  | NFunctionDef _ _ => "FunctionDef"
  | NClassDef _ _ => "ClassDef"
  | NWhile _ _ => "While"
  | NRaise _ => "Raise"
  | NPass => "Pass"
  | NCall _ _ => "Call"
  | NAttribute _ _ => "Attribute"
  | NName _ => "Name"
  | NConstant _ => "Constant"
  | NBinOp _ _ _ => "BinOp"
  | NOther c _ _ => c
  end.

(** [ast.iter_child_nodes(node)], in field order. *)
Definition iter_child_nodes (n : node) : list node :=
  match n with
  | NModule body => body
  | NExpr v => [v]
  | NAssign t v => [t; v]
  | NImport _ => []
  | NImportFrom _ _ => []
  | NFunctionDef _ body => body
  | NClassDef _ body => body
  | NWhile t body => t :: body
  | NRaise e => [e]
  | NPass => []
  | NCall f args => f :: args
  | NAttribute v _ => [v]
  | NName _ => []
  | NConstant _ => []
  | NBinOp l _ r => [l; r]
  | NOther _ _ ch => ch
  end.

(** Number of nodes of a tree. *)
Fixpoint size (n : node) : nat :=
  match n with
  | NModule body => S (list_sum (map size body))
  | NExpr v => S (size v)
  | NAssign t v => S (size t + size v)
  | NImport _ => 1
  | NImportFrom _ _ => 1
  | NFunctionDef _ body => S (list_sum (map size body))
  | NClassDef _ body => S (list_sum (map size body))
  | NWhile t body => S (size t + list_sum (map size body))
  | NRaise e => S (size e)
  | NPass => 1
  | NCall f args => S (size f + list_sum (map size args))
  | NAttribute v _ => S (size v)
  | NName _ => 1
  | NConstant _ => 1
  | NBinOp l _ r => S (size l + size r)
  | NOther _ _ ch => S (list_sum (map size ch))
  end.

(** [ast.walk]: breadth first, from a queue.  The generator
<<
    todo = deque([node])
    while todo:
        node = todo.popleft()
        todo.extend(iter_child_nodes(node))
        yield node
>>
    yields one node per iteration; [fuel] bounds the iterations. *)
Fixpoint walk_queue (fuel : nat) (todo : list node) : list node :=
  match fuel, todo with
  | S fuel', n :: rest => n :: walk_queue fuel' (rest ++ iter_child_nodes n)
  | _, _ => []
  end.

Definition walk (tree : node) : list node := walk_queue (size tree) [tree].

(** *** [ast.unparse] *)

(** One character of [repr(s)] inside the quotes [quote]: the quote and
    the backslash are escaped, the tab, the line feed and the carriage
    return are written [\t], [\n], [\r], the other control characters in
    hexadecimal.  A byte above 127 belongs to the encoding of a character
    outside ASCII, taken to be printable, and is written as it is. *)
Definition repr_char (quote : ascii) (c : ascii) : string :=
  let n := nat_of_ascii c in
  if Ascii.eqb c quote || (n =? 92)%nat then bs ++ String c EmptyString
  else if (n =? 9)%nat then bs ++ "t"
  else if (n =? 10)%nat then bs ++ "n"
  else if (n =? 13)%nat then bs ++ "r"
  else if (n <? 32)%nat || (n =? 127)%nat then
    bs ++ "x" ++ String (hex_digit (n / 16))
                   (String (hex_digit (n mod 16)) EmptyString)
  else String c EmptyString.

Fixpoint repr_chars (quote : ascii) (s : string) : string :=
  match s with
  | EmptyString => ""
  | String c s' => repr_char quote c ++ repr_chars quote s'
  end.

(** [repr(s)] of a string: in single quotes, unless the string holds a
    single quote and no double quote. *)
Definition repr_str (s : string) : string :=
  let quote :=
    if has_char "'" s && negb (has_char (ascii_of_nat 34) s)
    then ascii_of_nat 34 else "'"%char in
  String quote (repr_chars quote s ++ String quote EmptyString).

(** [repr] of a literal, which is what [ast.unparse] writes for it. *)
Definition repr_constant (c : constant) : string :=
  match c with
  | CNone => "None"
  | CBool true => "True"
  | CBool false => "False"
  | CInt n => pretty n
  | CStr s => repr_str s
  end.

Definition operator_symbol (op : operator) : string :=
  match op with Add => "+" | Sub => "-" | Mult => "*" | FloorDiv => "//" end.

(** The levels of [ast._Precedence] the fragment uses, by their rank:
    [TEST] is the default, [ARITH] and [TERM] are the binary operators',
    [ATOM] is required of the value of an attribute and of a callee. *)
Definition prec_TEST : nat := 2.
Definition prec_ARITH : nat := 12.
Definition prec_TERM : nat := 13.
Definition prec_ATOM : nat := 17.

Definition operator_precedence (op : operator) : nat :=
  match op with
  | Add | Sub => prec_ARITH
  | Mult | FloorDiv => prec_TERM
  end.

Definition require_parens (wanted current : nat) (s : string) : string :=
  if (wanted <? current)%nat then "(" ++ s ++ ")" else s.

(** [isinstance(node, Constant) and isinstance(node.value, int)]; [bool]
    is a subclass of [int]. *)
Definition is_int_constant (n : node) : bool :=
  match n with
  | NConstant (CInt _) | NConstant (CBool _) => true
  | _ => false
  end.

(** [unparse_at ind p n]: the source text of [n] at indentation [ind], in a
    context that requires precedence [p]. *)
Fixpoint unparse_at (ind : string) (p : nat) (n : node) : string :=
  let block body :=
    let ind' := ind ++ "    " in
    ":" ++ nl ++ ind' ++ join (nl ++ ind') (map (unparse_at ind' prec_TEST) body) in
  match n with
  | NModule body => join (nl ++ ind) (map (unparse_at ind prec_TEST) body)
  | NExpr v => unparse_at ind prec_TEST v
  | NAssign t v => unparse_at ind prec_TEST t ++ " = " ++ unparse_at ind prec_TEST v
  | NImport names => "import " ++ join ", " names
  | NImportFrom m names => "from " ++ m ++ " import " ++ join ", " names
  | NFunctionDef name body => "def " ++ name ++ "()" ++ block body
  | NClassDef name body => "class " ++ name ++ block body
  | NWhile t body => "while " ++ unparse_at ind prec_TEST t ++ block body
  | NRaise e => "raise " ++ unparse_at ind prec_TEST e
  | NPass => "pass"
  | NCall f args =>
      unparse_at ind prec_ATOM f ++ "(" ++
      join ", " (map (unparse_at ind prec_TEST) args) ++ ")"
  | NAttribute v a =>
      unparse_at ind prec_ATOM v ++ (if is_int_constant v then " " else "") ++
      "." ++ a
  | NName id => id
  | NConstant c => repr_constant c
  | NBinOp l op r =>
      let q := operator_precedence op in
      require_parens q p
        (unparse_at ind q l ++ " " ++ operator_symbol op ++ " " ++
         unparse_at ind (S q) r)
  | NOther _ text _ => text
  end.

(** [ast.unparse(node)]. *)
Definition unparse (n : node) : string := unparse_at "" prec_TEST n.

(** ** The runtime interface *)

(** What a piece of code running on the worker thread has done when the
    caller looks: it returned, with the namespace it left and the time left
    of the budget; it raised an exception whose class derives from
    [Exception], with the namespace at the fault; it raised one whose
    class does not ([SystemExit], [KeyboardInterrupt], [GeneratorExit]),
    which [except Exception] does not catch, with the namespace at that
    point; or it is still running, the budget spent, with the namespace as
    the caller finds it at that instant. *)
Inductive run (A : Type) : Type :=
| Returned (a : A) (ns : namespace) (left : nat)
| Raised (e : exception) (ns : namespace)
| Exited (e : exception) (ns : namespace)
| Running (ns : namespace).

Arguments Returned {A} a ns left.
Arguments Raised {A} e ns.
Arguments Exited {A} e ns.
Arguments Running {A} ns.

(** Code on the worker thread: from the namespace and the time budget. *)
Definition worker (A : Type) : Type := namespace -> nat -> run A.

Definition wret {A} (a : A) : worker A := fun ns t => Returned a ns t.

Definition wbind {A B} (m : worker A) (k : A -> worker B) : worker B :=
  fun ns t =>
    match m ns t with
    | Returned a ns' t' => k a ns' t'
    | Raised e ns' => Raised e ns'
    | Exited e ns' => Exited e ns'
    | Running ns' => Running ns'
    end.

#[global] Instance worker_ret : MRet worker := @wret.
#[global] Instance worker_bind : MBind worker := fun A B k m => wbind m k.

(** The builtins and library functions [safe_python.py] calls.
    - [ast_parse]: [ast.parse(query)], a tree or the exception raised.
    - [compile_eval]: [compile(code, "", "eval")] succeeds ([false]: it
      raises [SyntaxError]).
    - [py_exec]: [exec(code, namespace)]; its result is the text the code
      wrote to [sys.stdout].
    - [py_eval]: [eval(code, namespace)]; the value, and the text written.
    - [split_code_blocks]: [creator.utils.split_code_blocks].
    - [raise_tb]: the traceback lines of an exception raised at a line of
      [safe_python.py] (the path printed depends on the installation). *)
Class PyRuntime : Type := {
  ast_parse : string -> exception + node;
  compile_eval : string -> bool;
  py_exec : string -> worker string;
  py_eval : string -> worker (value * string);
  split_code_blocks : string -> list string;
  raise_tb : nat -> string
}.

(** ** The interpreter *)

(** The dictionary [_run] and [run_with_return] return.  [stdout] is read
    back from the namespace with [dict.get], so it is an object. *)
Record result : Type := Result {
  status : string;
  stdout : value;
  stderr : string
}.

(** How a call of a method ends for its caller: it returns, or an exception
    leaves it ([traceback.format_exception], given the unpacking of an
    object that is not exception information, raises on the caller's
    thread; the class of what it raises depends on the object). *)
Inductive outcome : Type :=
| Ret (r : result)
| Raises.

(** An instance of [SafePythonInterpreter]: its fields [namespace] and
    [setup_done], and the number of worker threads it has started. *)
Record interp : Type := Interp {
  namespace_of : namespace;
  setup_done : bool;
  started : nat
}.

Definition set_namespace (self : interp) (ns : namespace) : interp :=
  Interp ns (setup_done self) (started self).

(** How a call of [run_code] stands when its time is spent: it has
    returned; an exception that [except Exception] does not catch has left
    it, the [finally] clause done; or it is still running.  On the worker
    thread the first two are a thread that is no longer alive when
    [thread.join(timeout)] returns: an exception that leaves the target
    ends the thread and goes no further. *)
Inductive joined : Type :=
| Finished (ns : namespace)
| Died (e : exception) (ns : namespace)
| Alive (ns : namespace).

(** How a call of [setup] ends for its caller, with the interpreter as
    the call leaves it: it returns; an exception leaves it; or it has not
    returned when the budget ends. *)
Inductive setup_outcome : Type :=
| SetupReturned (self : interp)
| SetupRaised (e : exception) (self : interp)
| SetupRunning (self : interp).

Definition ALLOWED_FUNCTIONS : list string :=
  ["create"; "save"; "search"; "CodeSkill"].

Definition ALLOW_METHODS : list string :=
  [".show"; ".test"; ".run"; "__add__"; "__gt__"; "__lt__"; "__annotations__"].

(** Seconds in the source; the runtime counts its budget in units of its
    own. *)
Definition TIMEOUT : nat := 1200.

(** [isinstance(node, (ast.Import, ast.ImportFrom, ast.FunctionDef, ast.ClassDef))]. *)
Definition is_unsafe_node (n : node) : bool :=
  match n with
  | NImport _ | NImportFrom _ _ | NFunctionDef _ _ | NClassDef _ _ => true
  | _ => false
  end.

(** [isinstance(node, ast.Call)]. *)
Definition is_call (n : node) : bool :=
  match n with NCall _ _ => true | _ => false end.

Definition is_allowed_function (n : node) : bool :=
  match n with
  | NCall (NName id) _ => bool_decide (id ∈ ALLOWED_FUNCTIONS)
  | _ => false
  end.

Definition is_allowed_method (n : node) : bool :=
  match n with
  | NCall f _ =>
      existsb (fun allowed_method => str_in allowed_method (unparse f))
              ALLOW_METHODS
  | _ => false
  end.

Section Interpreter.
Context `{PyRuntime}.

Definition ValueError (line : nat) (msg : string) : exception :=
  Exc "ValueError" msg (raise_tb line).

(** The loop of [preprocess] over the nodes [ast.walk] yields: the
    exception raised at the first node that fails a test, if any. *)
Fixpoint check_nodes (nodes : list node) : option exception :=
  match nodes with
  | [] => None
  | n :: rest =>
      if is_unsafe_node n then
        Some (ValueError 61
                ("Usage of " ++ class_name n ++ " nodes is not allowed"))
      else if is_call n then
        if negb (is_allowed_function n || is_allowed_method n) then
          Some (ValueError 65
                  ("Usage of disallowed function/method: " ++ unparse n))
        else check_nodes rest
      else check_nodes rest
  end.

(** The [try] suite of [preprocess]: the exception it raises, if any. *)
Definition preprocess_try (restricted : bool) (query : string)
  : option exception :=
  match ast_parse query with
  | inl e => Some e
  | inr tree => if restricted then check_nodes (walk tree) else None
  end.

Definition preprocess (self : interp) (query : string) : string * interp :=
  match preprocess_try (setup_done self) query with
  | None => (query, self)
  | Some e =>
      ("", set_namespace self
             (<["_preprocess_info" := VExcInfo e]> (namespace_of self)))
  end.

Definition is_expression (code : string) : bool := compile_eval code.

Definition execute_last_line (last_line : string) : worker string :=
  if is_expression last_line then
    '(eval_output, printed_output) ← py_eval last_line;
    let output :=
      match eval_output with VNone => "" | _ => py_str eval_output end in
    mret (output ++ printed_output)
  else
    printed_output ← py_exec last_line;
    mret printed_output.

Fixpoint execute_code_blocks (blocks : list string) : worker string :=
  match blocks with
  | [] => mret ""
  | block :: blocks' =>
      printed ← py_exec block;
      printed' ← execute_code_blocks blocks';
      mret (printed ++ printed')
  end.

(** [code_blocks.pop(-1) if len(code_blocks) > 0 else ""], with the list
    that is left. *)
Definition pop_last (code_blocks : list string) : list string * string :=
  (removelast code_blocks, List.last code_blocks "").

(** The [try] suite of [run_code] up to the bookkeeping: the output of
    the blocks of [query]. *)
Definition run_blocks (query : string) : worker string :=
  let '(code_blocks, last_line) := pop_last (split_code_blocks query) in
  output ←
    (if (0 <? length code_blocks)%nat then execute_code_blocks code_blocks
     else mret "");
  output' ←
    (if negb (String.eqb last_line "") then execute_last_line last_line
     else mret "");
  mret (output ++ output').

Definition run_code (query : string) (ns : namespace) (budget : nat)
  : joined :=
  match run_blocks query ns budget with
  | Returned output ns' _ =>
      let ns'' := delete "_stdout_info" ns' in
      Finished
        (if negb (String.eqb output "")
         then <["_stdout_info" := VStr output]> ns''
         else ns'')
  | Raised e ns' => Finished (<["_exec_info" := VExcInfo e]> ns')
  | Exited e ns' => Died e ns'
  | Running ns' => Alive ns'
  end.

(** [setup] runs [run_code] on the calling thread, with no time limit:
    it returns once the code has, which [budget] must allow, and an
    exception that leaves [run_code] leaves [setup] before the flag is
    set. *)
Definition setup (budget : nat) (setup_code : string) (self : interp)
  : setup_outcome :=
  match run_code setup_code (namespace_of self) budget with
  | Finished ns' => SetupReturned (Interp ns' true (started self))
  | Died e ns' => SetupRaised e (set_namespace self ns')
  | Alive ns' => SetupRunning (set_namespace self ns')
  end.

(** [info if info else None]: what [dict.pop(key, None)] gave, when it is
    true. *)
Definition if_set (info : option value) : option value :=
  match info with
  | Some v => if truthy v then Some v else None
  | None => None
  end.

(** The error result built from [traceback.format_exception] on the
    unpacked [info]. *)
Definition error_of (info : value) (out : value) : outcome :=
  match info with
  | VExcInfo e => Ret (Result "error" out (format_exception e))
  | _ => Raises
  end.

Definition run_with_return (query : string) (self : interp)
  : outcome * interp :=
  let self := Interp (namespace_of self) (setup_done self) (S (started self)) in
  match run_code query (namespace_of self) TIMEOUT with
  | Alive ns =>
      let stdout := default (VStr "") (ns !! "_stdout_info") in
      (Ret (Result "error" stdout "Code execution timed out"),
       set_namespace self ns)
  | Finished ns | Died _ ns =>
      let stdout := default (VStr "") (ns !! "_stdout_info") in
      let exec_info := ns !! "_exec_info" in
      let self := set_namespace self (delete "_exec_info" ns) in
      match if_set exec_info with
      | Some info => (error_of info stdout, self)
      | None => (Ret (Result "success" stdout ""), self)
      end
  end.

Definition _run (query : string) (self : interp) : outcome * interp :=
  let '(query, self) := preprocess self query in
  let preprocess_info := namespace_of self !! "_preprocess_info" in
  let self :=
    set_namespace self (delete "_preprocess_info" (namespace_of self)) in
  match if_set preprocess_info with
  | Some info => (error_of info (VStr ""), self)
  | None => run_with_return query self
  end.

End Interpreter.

(** ** MiniPy: the runtime on a fragment of Python

    Programs of the fragment are sequences of one-line statements:
    assignments to a name, expression statements, [pass], [import],
    [from ... import ...], [raise expression] and [while test: statement],
    over expressions built from names, integer and single-quoted string
    literals, [True], [False], [None], the operators [+ - * //], attribute
    access and calls.  Text outside the fragment is a syntax error.  The
    entry [__builtins__] that [exec] adds to the namespace is left out. *)
Module MiniPy.

(** *** Lexical analysis *)

Inductive token : Type :=
| TName (s : string)
| TInt (n : N)
| TStr (s : string)
| TOp (s : string).

#[global] Instance token_eq_dec : EqDecision token.
Proof. solve_decision. Defined.

Definition in_range (lo hi : nat) (c : ascii) : bool :=
  let n := nat_of_ascii c in (lo <=? n)%nat && (n <=? hi)%nat.

Definition is_digit (c : ascii) : bool := in_range 48 57 c.

Definition is_name_start (c : ascii) : bool :=
  in_range 65 90 c || in_range 97 122 c || Ascii.eqb c "_".

Definition is_name_char (c : ascii) : bool := is_name_start c || is_digit c.

Definition is_space (c : ascii) : bool :=
  Ascii.eqb c " " || Ascii.eqb c (ascii_of_nat 9).

Definition digit_value (c : ascii) : N := N.of_nat (nat_of_ascii c - 48).

Definition snoc (s : string) (c : ascii) : string := s ++ String c EmptyString.

(** What the scanner is in the middle of. *)
Inductive lex_state : Type :=
| LStart
| LName (acc : string)
| LInt (acc : N)
| LStr (acc : string)
| LSlash
| LComment.

(** The scanner meets [c] between two tokens. *)
Definition lex_start (c : ascii) : option (lex_state * list token) :=
  if is_space c then Some (LStart, [])
  else if is_name_start c then Some (LName (String c EmptyString), [])
  else if is_digit c then Some (LInt (digit_value c), [])
  else if Ascii.eqb c "'" then Some (LStr "", [])
  else if Ascii.eqb c "/" then Some (LSlash, [])
  else if Ascii.eqb c "#" then Some (LComment, [])
  else if str_in (String c EmptyString) "+-*=(),.:"
    then Some (LStart, [TOp (String c EmptyString)])
  else None.

(** The tokens of one line, [None] on a character or a literal outside
    the fragment. *)
Fixpoint lex (st : lex_state) (s : string) : option (list token) :=
  match s with
  | EmptyString =>
      match st with
      | LStart | LComment => Some []
      | LName a => Some [TName a]
      | LInt a => Some [TInt a]
      | LStr _ | LSlash => None
      end
  | String c s' =>
      let restart (done : list token) :=
        '(st', toks) ← lex_start c;
        rest ← lex st' s';
        Some (done ++ toks ++ rest)%list in
      match st with
      | LStart => restart []
      | LComment => lex LComment s'
      | LName a =>
          if is_name_char c then lex (LName (snoc a c)) s'
          else restart [TName a]
      | LInt a =>
          if is_digit c then lex (LInt (10 * a + digit_value c)) s'
          else if is_name_start c then None
          else restart [TInt a]
      | LStr a =>
          if Ascii.eqb c "'" then (cons (TStr a)) <$> lex LStart s'
          else if Ascii.eqb c "\" then None
          else lex (LStr (snoc a c)) s'
      | LSlash =>
          if Ascii.eqb c "/" then (cons (TOp "//")) <$> lex LStart s'
          else None
      end
  end.

Definition tokenize (line : string) : option (list token) := lex LStart line.

(** *** Syntax analysis *)

Definition keywords : list string :=
  ["import"; "from"; "while"; "pass"; "def"; "class"; "True"; "False";
   "None"; "if"; "else"; "return"; "raise"; "for"; "in"; "not"; "and";
   "or"; "is"; "lambda"; "del"; "try"; "except"; "with"; "as"].

Definition is_keyword (s : string) : bool := bool_decide (s ∈ keywords).

(** Recursive descent over the tokens of a line; [fuel] bounds the depth
    of the descent.  Each function returns the node it read and the
    tokens that follow it. *)
Fixpoint parse_atom (fuel : nat) (toks : list token)
  : option (node * list token) :=
  match fuel with
  | O => None
  | S fuel' =>
      match toks with
      | TName "True" :: rest => Some (NConstant (CBool true), rest)
      | TName "False" :: rest => Some (NConstant (CBool false), rest)
      | TName "None" :: rest => Some (NConstant CNone, rest)
      | TName x :: rest =>
          if is_keyword x then None else Some (NName x, rest)
      | TInt n :: rest => Some (NConstant (CInt n), rest)
      | TStr s :: rest => Some (NConstant (CStr s), rest)
      | TOp "(" :: rest =>
          '(e, rest') ← parse_arith fuel' rest;
          match rest' with
          | TOp ")" :: rest'' => Some (e, rest'')
          | _ => None
          end
      | _ => None
      end
  end
with parse_trailers (fuel : nat) (e : node) (toks : list token)
  : option (node * list token) :=
  match fuel with
  | O => None
  | S fuel' =>
      match toks with
      | TOp "." :: TName a :: rest =>
          if is_keyword a then None
          else parse_trailers fuel' (NAttribute e a) rest
      | TOp "(" :: TOp ")" :: rest => parse_trailers fuel' (NCall e []) rest
      | TOp "(" :: rest =>
          '(args, rest') ← parse_args fuel' rest;
          parse_trailers fuel' (NCall e args) rest'
      | _ => Some (e, toks)
      end
  end
with parse_args (fuel : nat) (toks : list token)
  : option (list node * list token) :=
  match fuel with
  | O => None
  | S fuel' =>
      '(a, rest) ← parse_arith fuel' toks;
      match rest with
      | TOp ")" :: rest' => Some ([a], rest')
      | TOp "," :: TOp ")" :: rest' => Some ([a], rest')
      | TOp "," :: rest' =>
          '(args, rest'') ← parse_args fuel' rest';
          Some (a :: args, rest'')
      | _ => None
      end
  end
with parse_term (fuel : nat) (toks : list token)
  : option (node * list token) :=
  match fuel with
  | O => None
  | S fuel' =>
      '(a, rest) ← parse_atom fuel' toks;
      '(l, rest') ← parse_trailers fuel' a rest;
      parse_term_rest fuel' l rest'
  end
with parse_term_rest (fuel : nat) (l : node) (toks : list token)
  : option (node * list token) :=
  match fuel with
  | O => None
  | S fuel' =>
      let operand op rest :=
        '(a, rest') ← parse_atom fuel' rest;
        '(r, rest'') ← parse_trailers fuel' a rest';
        parse_term_rest fuel' (NBinOp l op r) rest'' in
      match toks with
      | TOp "*" :: rest => operand Mult rest
      | TOp "//" :: rest => operand FloorDiv rest
      | _ => Some (l, toks)
      end
  end
with parse_arith (fuel : nat) (toks : list token)
  : option (node * list token) :=
  match fuel with
  | O => None
  | S fuel' =>
      '(l, rest) ← parse_term fuel' toks;
      parse_arith_rest fuel' l rest
  end
with parse_arith_rest (fuel : nat) (l : node) (toks : list token)
  : option (node * list token) :=
  match fuel with
  | O => None
  | S fuel' =>
      let operand op rest :=
        '(r, rest') ← parse_term fuel' rest;
        parse_arith_rest fuel' (NBinOp l op r) rest' in
      match toks with
      | TOp "+" :: rest => operand Add rest
      | TOp "-" :: rest => operand Sub rest
      | _ => Some (l, toks)
      end
  end.

(** Each step of the descent spends fuel and most consume a token; four
    steps per token and a few to start are enough. *)
Definition fuel_for (toks : list token) : nat := 4 * length toks + 8.

(** An expression that takes up all of [toks]. *)
Definition parse_expression (toks : list token) : option node :=
  match parse_arith (fuel_for toks) toks with
  | Some (e, []) => Some e
  | _ => None
  end.

(** [a.b.c] after [import] or [from]. *)
Fixpoint parse_dotted (toks : list token) : option (string * list token) :=
  match toks with
  | TName a :: TOp "." :: rest =>
      if is_keyword a then None
      else '(b, rest') ← parse_dotted rest; Some (a ++ "." ++ b, rest')
  | TName a :: rest => if is_keyword a then None else Some (a, rest)
  | _ => None
  end.

(** Names separated by commas, to the end of the line. *)
Fixpoint parse_names (fuel : nat) (toks : list token) : option (list string) :=
  match fuel with
  | O => None
  | S fuel' =>
      '(a, rest) ← parse_dotted toks;
      match rest with
      | [] => Some [a]
      | TOp "," :: rest' => cons a <$> parse_names fuel' rest'
      | _ => None
      end
  end.

Definition parse_simple (toks : list token) : option node :=
  match toks with
  | [TName "pass"] => Some NPass
  | TName "import" :: rest => NImport <$> parse_names (S (length rest)) rest
  | TName "from" :: rest =>
      '(m, rest') ← parse_dotted rest;
      match rest' with
      | TName "import" :: rest'' =>
          NImportFrom m <$> parse_names (S (length rest'')) rest''
      | _ => None
      end
  | TName "raise" :: rest => NRaise <$> parse_expression rest
  | TName x :: TOp "=" :: rest =>
      if is_keyword x then None
      else NAssign (NName x) <$> parse_expression rest
  | _ => NExpr <$> parse_expression toks
  end.

(** The test of a [while], up to the colon, and what follows the colon. *)
Definition parse_while (toks : list token) : option node :=
  '(t, rest) ← parse_arith (fuel_for toks) toks;
  match rest with
  | TOp ":" :: body => NWhile t <$> (s ← parse_simple body; Some [s])
  | _ => None
  end.

Definition parse_statement (toks : list token) : option node :=
  match toks with
  | TName "while" :: rest => parse_while rest
  | _ => parse_simple toks
  end.

(** [text.split(nl)]: [cur] is the line being read. *)
Fixpoint split_lines (cur : string) (text : string) : list string :=
  match text with
  | EmptyString => [cur]
  | String c text' =>
      if Ascii.eqb c (ascii_of_nat 10) then cur :: split_lines "" text'
      else split_lines (snoc cur c) text'
  end.

Definition lines (text : string) : list string := split_lines "" text.

Definition starts_with_space (line : string) : bool :=
  match line with
  | EmptyString => false
  | String c _ => is_space c
  end.

(** A line with no token: empty, blank or a comment. *)
Definition is_blank (line : string) : bool :=
  bool_decide (tokenize line = Some []).

Definition frame (file : string) (line : nat) (where_ : string) : string :=
  "  File " ++ dq ++ file ++ dq ++ ", line " ++ pretty line ++ ", in " ++
  where_ ++ nl.

(** Traceback of an exception raised by the submitted code.  The
    tracebacks of the fragment are abridged to their last frame. *)
Definition tb_code : string := frame "<string>" 1 "<module>".

(** The place of a syntax error, as the traceback prints it. *)
Definition location (file : string) (line : nat) : string :=
  "  File " ++ dq ++ file ++ dq ++ ", line " ++ pretty line ++ nl.

Definition SyntaxError (file : string) (line : nat) : exception :=
  Exc "SyntaxError" "invalid syntax" (location file line).

Definition IndentationError (file : string) (line : nat) : exception :=
  Exc "IndentationError" "unexpected indent" (location file line).

(** The statements of the lines of [file] from line number [k] on. *)
Fixpoint parse_lines (file : string) (k : nat) (ls : list string)
  : exception + list node :=
  match ls with
  | [] => inr []
  | l :: ls' =>
      match tokenize l with
      | None => inl (SyntaxError file k)
      | Some [] => parse_lines file (S k) ls'
      | Some toks =>
          if starts_with_space l then inl (IndentationError file k)
          else
            match parse_statement toks with
            | None => inl (SyntaxError file k)
            | Some stmt =>
                match parse_lines file (S k) ls' with
                | inl e => inl e
                | inr body => inr (stmt :: body)
                end
            end
      end
  end.

(** The module that [text] is, read under the name [file]. *)
Definition parse_in (file : string) (text : string) : exception + node :=
  match parse_lines file 1 (lines text) with
  | inl e => inl e
  | inr body => inr (NModule body)
  end.

(** [ast.parse(text)]. *)
Definition parse (text : string) : exception + node := parse_in "<unknown>" text.

(** The expression [compile(text, "", "eval")] compiles, if [text] is
    one expression. *)
Definition parse_eval (text : string) : option node :=
  match parse text with
  | inr (NModule [NExpr e]) => Some e
  | _ => None
  end.

(** *** Evaluation *)

(** One unit of the time budget; when none is left the code is still
    running as the budget ends. *)
Definition tick : worker unit :=
  fun ns t => match t with O => Running ns | S t' => Returned tt ns t' end.

Definition raise {A} (e : exception) : worker A := fun ns _ => Raised e ns.

(** An exception whose class does not derive from [Exception] is raised. *)
Definition raise_exit {A} (e : exception) : worker A := fun ns _ => Exited e ns.

Definition lookup_name (id : string) : worker (option value) :=
  fun ns t => Returned (ns !! id) ns t.

Definition store_name (id : string) (v : value) : worker unit :=
  fun ns t => Returned tt (<[id := v]> ns) t.

Definition error (cls msg : string) : exception := Exc cls msg tb_code.

Definition type_name (v : value) : string :=
  match v with
  | VNone => "NoneType"
  | VBool _ => "bool"
  | VInt _ => "int"
  | VStr _ => "str"
  | VExcInfo _ => "tuple"
  | VObject c _ => c
  end.

Definition value_of (c : constant) : value :=
  match c with
  | CNone => VNone
  | CBool b => VBool b
  | CInt n => VInt (Z.of_N n)
  | CStr s => VStr s
  end.

(** The builtins of the fragment are [print] and these exception
    classes: the ones that derive from [Exception], and the ones that
    derive from [BaseException] only. *)
Definition builtin_print : value :=
  VObject "builtin_function_or_method" "<built-in function print>".

Definition exception_classes : list string :=
  ["Exception"; "ValueError"; "TypeError"; "NameError"; "RuntimeError";
   "ZeroDivisionError"].

Definition exit_classes : list string :=
  ["BaseException"; "SystemExit"; "KeyboardInterrupt"; "GeneratorExit"].

(** The class object of the class [name]. *)
Definition class_object (name : string) : value :=
  VObject "type" ("<class '" ++ name ++ "'>").

(** The builtin exception class that [v] is, if it is one. *)
Definition class_of (v : value) : option string :=
  List.find (fun name => bool_decide (class_object name = v))
            (exception_classes ++ exit_classes).

Definition builtin (id : string) : option value :=
  if String.eqb id "print" then Some builtin_print
  else if bool_decide (id ∈ (exception_classes ++ exit_classes)%list)
  then Some (class_object id)
  else None.

(** [repr(v)]; of an exception instance the model keeps its [str()]
    only, and that is what is written for it. *)
Definition py_repr (v : value) : string :=
  match v with
  | VStr s => repr_str s
  | _ => py_str v
  end.

(** [str(E(args))] of an exception class [E]. *)
Definition exception_text (args : list value) : string :=
  match args with
  | [] => ""
  | [a] => py_str a
  | _ => "(" ++ join ", " (map py_repr args) ++ ")"
  end.

Definition as_int (v : value) : option Z :=
  match v with
  | VInt z => Some z
  | VBool b => Some (if b then 1 else 0)%Z
  | _ => None
  end.

Fixpoint str_repeat (n : nat) (s : string) : string :=
  match n with O => "" | S n' => s ++ str_repeat n' s end.

Definition unsupported (op : operator) (l r : value) : exception :=
  error "TypeError"
    ("unsupported operand type(s) for " ++ operator_symbol op ++ ": '" ++
     type_name l ++ "' and '" ++ type_name r ++ "'").

(** The binary operators on integers (booleans included) and strings. *)
Definition binop (op : operator) (l r : value) : exception + value :=
  match as_int l, as_int r with
  | Some a, Some b =>
      match op with
      | Add => inr (VInt (a + b))
      | Sub => inr (VInt (a - b))
      | Mult => inr (VInt (a * b))
      | FloorDiv =>
          if (b =? 0)%Z
          then inl (error "ZeroDivisionError"
                      "integer division or modulo by zero")
          else inr (VInt (a / b))
      end
  | _, _ =>
      match op, l, r with
      | Add, VStr a, VStr b => inr (VStr (a ++ b))
      | Add, VStr _, _ =>
          inl (error "TypeError"
                 ("can only concatenate str (not " ++ dq ++ type_name r ++
                  dq ++ ") to str"))
      | Mult, VStr a, _ =>
          match as_int r with
          | Some b => inr (VStr (str_repeat (Z.to_nat b) a))
          | None =>
              inl (error "TypeError"
                     ("can't multiply sequence by non-int of type '" ++
                      type_name r ++ "'"))
          end
      | Mult, _, VStr b =>
          match as_int l with
          | Some a => inr (VStr (str_repeat (Z.to_nat a) b))
          | None => inl (unsupported op l r)
          end
      | _, _, _ => inl (unsupported op l r)
      end
  end.

(** The call of [f] on [args]: the value and the text written.  The call
    of an exception class gives an instance of it. *)
Definition call (f : value) (args : list value) : worker (value * string) :=
  if bool_decide (f = builtin_print)
  then mret (VNone, join " " (map py_str args) ++ nl)
  else
    match class_of f with
    | Some cls => mret (VObject cls (exception_text args), "")
    | None =>
        raise (error "TypeError"
                 ("'" ++ type_name f ++ "' object is not callable"))
    end.

(** [raise v]: a class is instantiated with no argument; an instance is
    raised as it is; any other object is a [TypeError]. *)
Definition raise_value {A} (v : value) : worker A :=
  let throw cls msg : worker A :=
    if bool_decide (cls ∈ exit_classes) then raise_exit (error cls msg)
    else raise (error cls msg) in
  match class_of v, v with
  | Some cls, _ => throw cls ""
  | None, VObject cls msg =>
      if bool_decide (cls ∈ (exception_classes ++ exit_classes)%list)
      then throw cls msg
      else raise (error "TypeError" "exceptions must derive from BaseException")
  | None, _ =>
      raise (error "TypeError" "exceptions must derive from BaseException")
  end.

(** Evaluation of an expression: its value and the text written.  [d]
    bounds the depth of the recursion; [exec] and [eval] start it above
    the budget plus the size of the tree.  The objects of the fragment
    are taken to have no attribute. *)
Fixpoint eval_expr (d : nat) (n : node) : worker (value * string) :=
  match d with
  | O => fun ns _ => Running ns
  | S d' =>
      _ ← tick;
      match n with
      | NConstant c => mret (value_of c, "")
      | NName id =>
          bound ← lookup_name id;
          match bound with
          | Some v => mret (v, "")
          | None =>
              match builtin id with
              | Some v => mret (v, "")
              | None =>
                  raise (error "NameError"
                           ("name '" ++ id ++ "' is not defined"))
              end
          end
      | NBinOp l op r =>
          '(a, o1) ← eval_expr d' l;
          '(b, o2) ← eval_expr d' r;
          match binop op a b with
          | inl e => raise e
          | inr v => mret (v, o1 ++ o2)
          end
      | NAttribute v a =>
          '(x, _) ← eval_expr d' v;
          raise (error "AttributeError"
                   ("'" ++ type_name x ++ "' object has no attribute '" ++
                    a ++ "'"))
      | NCall f args =>
          '(fv, o1) ← eval_expr d' f;
          '(vs, o2) ← eval_args d' args;
          '(r, o3) ← call fv vs;
          mret (r, o1 ++ o2 ++ o3)
      | _ => raise (error "SyntaxError" "invalid syntax")
      end
  end
with eval_args (d : nat) (args : list node) : worker (list value * string) :=
  match d with
  | O => fun ns _ => Running ns
  | S d' =>
      match args with
      | [] => mret ([], "")
      | a :: args' =>
          '(v, o1) ← eval_expr d' a;
          '(vs, o2) ← eval_args d' args';
          mret (v :: vs, o1 ++ o2)
      end
  end.

(** The part of a dotted name before the first dot. *)
Fixpoint top_level (name : string) : string :=
  match name with
  | EmptyString => ""
  | String c name' =>
      if Ascii.eqb c "." then "" else String c (top_level name')
  end.

Definition module_sys : value := VObject "module" "<module 'sys' (built-in)>".

(** [import name]: [sys] is the one module installed. *)
Definition import_name (name : string) : worker unit :=
  if String.eqb name "sys" then store_name "sys" module_sys
  else raise (error "ModuleNotFoundError"
                ("No module named '" ++ top_level name ++ "'")).

Fixpoint import_names (names : list string) : worker unit :=
  match names with
  | [] => mret tt
  | name :: names' => _ ← import_name name; import_names names'
  end.

(** Execution of a statement: the text written. *)
Fixpoint exec_stmt (d : nat) (n : node) : worker string :=
  match d with
  | O => fun ns _ => Running ns
  | S d' =>
      _ ← tick;
      match n with
      | NExpr v => '(_, o) ← eval_expr d' v; mret o
      | NAssign (NName x) v =>
          '(a, o) ← eval_expr d' v;
          _ ← store_name x a;
          mret o
      | NPass => mret ""
      | NRaise exc =>
          '(v, _) ← eval_expr d' exc;
          raise_value v
      | NImport names => _ ← import_names names; mret ""
      | NImportFrom m names =>
          if String.eqb m "sys"
          then raise (error "ImportError"
                        ("cannot import name '" ++ hd "" names ++
                         "' from 'sys' (unknown location)"))
          else raise (error "ModuleNotFoundError"
                        ("No module named '" ++ top_level m ++ "'"))
      | NWhile t body =>
          '(c, o1) ← eval_expr d' t;
          if truthy c then
            o2 ← exec_body d' body;
            o3 ← exec_stmt d' (NWhile t body);
            mret (o1 ++ o2 ++ o3)
          else mret o1
      | _ => raise (error "SyntaxError" "invalid syntax")
      end
  end
with exec_body (d : nat) (body : list node) : worker string :=
  match d with
  | O => fun ns _ => Running ns
  | S d' =>
      match body with
      | [] => mret ""
      | stmt :: body' =>
          o1 ← exec_stmt d' stmt;
          o2 ← exec_body d' body';
          mret (o1 ++ o2)
      end
  end.

(** [exec(code, namespace)]. *)
Definition exec (code : string) : worker string :=
  fun ns t =>
    match parse_in "<string>" code with
    | inl e => Raised e ns
    | inr tree => exec_body (S (S t + size tree)) (iter_child_nodes tree) ns t
    end.

(** [eval(code, namespace)]. *)
Definition eval (code : string) : worker (value * string) :=
  fun ns t =>
    match parse_eval code with
    | None => Raised (SyntaxError "<string>" 1) ns
    | Some e => eval_expr (S (S t + size e)) e ns t
    end.

(** Modelled from the spec: [creator.utils.split_code_blocks], which is
    not among the sources.  The statement groups of the text, in order:
    a line that starts in the first column starts a group, an indented
    line continues the group before it, and lines with no statement are
    dropped; a text with no statement has no group. *)
Fixpoint group_lines (cur : option string) (ls : list string) : list string :=
  match ls with
  | [] => match cur with Some g => [g] | None => [] end
  | l :: ls' =>
      if is_blank l then group_lines cur ls'
      else if starts_with_space l then
        group_lines (Some (match cur with
                           | Some g => g ++ nl ++ l
                           | None => l
                           end)) ls'
      else
        (match cur with Some g => [g] | None => [] end ++
         group_lines (Some l) ls')%list
  end.

Definition split (text : string) : list string :=
  group_lines None (lines text).

Definition tb_raise (line : nat) : string :=
  frame "creator/code_interpreter/safe_python.py" line "preprocess".

#[global] Instance runtime : PyRuntime := {|
  ast_parse := parse;
  compile_eval code := bool_decide (is_Some (parse_eval code));
  py_exec := exec;
  py_eval := eval;
  split_code_blocks := split;
  raise_tb := tb_raise
|}.

End MiniPy.

(** ** Vocabulary of the statements *)

(** [descendant m n]: the node [m] occurs in the tree [n]. *)
Inductive descendant : node -> node -> Prop :=
| descendant_self n : descendant n n
| descendant_child m c n :
    c ∈ iter_child_nodes n -> descendant m c -> descendant m n.

Definition total_size (todo : list node) : nat := list_sum (map size todo).

(** A call that matches neither allow-list. *)
Definition disallowed_call (n : node) : bool :=
  is_call n && negb (is_allowed_function n || is_allowed_method n).

(** [needle] occurs in [hay]. *)
Definition occurs_in (needle hay : string) : Prop :=
  exists before after, hay = before ++ needle ++ after.

(** The keys under which the interpreter keeps its own records. *)
Definition bookkeeping : list string :=
  ["_stdout_info"; "_exec_info"; "_preprocess_info"].

(** The namespace a piece of worker code has left, however it stands. *)
Definition left_by {A} (r : run A) : namespace :=
  match r with
  | Returned _ ns _ => ns
  | Raised _ ns => ns
  | Exited _ ns => ns
  | Running ns => ns
  end.


(** [self] once [_run] has popped the key [_preprocess_info]. *)
Definition without_preprocess_info (self : interp) : interp :=
  set_namespace self (delete "_preprocess_info" (namespace_of self)).

(** The namespace once the success path of [run_code] has recorded
    [output]: the key [_stdout_info] is popped, and set again when
    [output] is not empty. *)
Definition recorded (output : string) (ns : namespace) : namespace :=
  if negb (String.eqb output "")
  then <["_stdout_info" := VStr output]> (delete "_stdout_info" ns)
  else delete "_stdout_info" ns.

(** [self] once a worker has been started and joined, with the namespace
    [run_with_return] leaves. *)
Definition after_worker (self : interp) (ns : namespace) : interp :=
  Interp ns (setup_done self) (S (started self)).

(** The text [execute_last_line] adds for the value of the tail. *)
Definition value_text (v : value) : string :=
  match v with VNone => "" | _ => py_str v end.

(** An interpreter with an empty namespace that has started no thread. *)
Definition fresh (restricted : bool) : interp := Interp ∅ restricted 0.

Section PolicyVocabulary.
Context `{PyRuntime}.

(** The exception the loop of [preprocess] raises at a node, if any. *)
Definition node_error (n : node) : option exception :=
  if is_unsafe_node n then
    Some (ValueError 61 ("Usage of " ++ class_name n ++ " nodes is not allowed"))
  else if disallowed_call n then
    Some (ValueError 65 ("Usage of disallowed function/method: " ++ unparse n))
  else None.

(** [n] is the first node, in the order of [ast.walk], at which the
    loop of [preprocess] raises. *)
Definition first_offender (tree n : node) : Prop :=
  exists before after,
    walk tree = (before ++ n :: after)%list /\
    (forall m, m ∈ before -> node_error m = None) /\
    is_Some (node_error n).

End PolicyVocabulary.

(** ** Strings and trees *)

Lemma prefix_app n b : String.prefix n (n ++ b) = true.
Proof.
  induction n as [|c n IH]; simpl; [by destruct b|].
  destruct (ascii_dec c c); [done | congruence].
Qed.

Lemma prefix_inv n h : String.prefix n h = true -> exists b, h = n ++ b.
Proof.
  revert h. induction n as [|c n IH]; intros h Hp.
  - by exists h.
  - destruct h as [|c' h]; simpl in Hp; [done|].
    destruct (ascii_dec c c') as [->|]; [|done].
    destruct (IH _ Hp) as [b ->]. by exists b.
Qed.

Lemma str_in_unfold n h :
  str_in n h =
  String.prefix n h ||
  match h with EmptyString => false | String _ h' => str_in n h' end.
Proof. by destruct h. Qed.

Lemma str_in_spec n h : str_in n h = true <-> occurs_in n h.
Proof.
  split.
  - induction h as [|c h IH]; rewrite str_in_unfold; intros Hin.
    + rewrite orb_false_r in Hin. apply prefix_inv in Hin as [b Hb].
      by exists "", b.
    + apply orb_true_iff in Hin as [Hp|Hin].
      * apply prefix_inv in Hp as [b Hb]. by exists "", b.
      * destruct (IH Hin) as (a & b & ->). by exists (String c a), b.
  - intros (a & b & ->). induction a as [|c a IH]; rewrite str_in_unfold.
    + change ("" ++ n ++ b) with (n ++ b). by rewrite prefix_app.
    + apply orb_true_iff. right. exact IH.
Qed.

Lemma app_cons c (a b : string) : String c a ++ b = String c (a ++ b).
Proof. reflexivity. Qed.

Lemma string_app_assoc (a b c : string) : (a ++ b) ++ c = a ++ b ++ c.
Proof.
  induction a as [|x a IH]; [done|]. rewrite !app_cons. by rewrite IH.
Qed.

Lemma occurs_in_app_r n a h : occurs_in n h -> occurs_in n (a ++ h).
Proof.
  intros (x & y & ->). exists (a ++ x), y. by rewrite string_app_assoc.
Qed.

Lemma occurs_in_app_l n h b : occurs_in n h -> occurs_in n (h ++ b).
Proof.
  intros (x & y & ->). exists x, (y ++ b).
  by rewrite !string_app_assoc.
Qed.

Lemma occurs_in_trans a b c : occurs_in a b -> occurs_in b c -> occurs_in a c.
Proof.
  intros (x & y & ->) (x' & y' & ->). exists (x' ++ x), (y ++ y').
  by rewrite !string_app_assoc.
Qed.

Lemma occurs_in_refl n : occurs_in n n.
Proof.
  exists "", "". change ("" ++ n ++ "") with (n ++ "").
  induction n as [|c n IH]; [done | by rewrite app_cons, <- IH].
Qed.

Lemma total_size_app l1 l2 : total_size (l1 ++ l2) = total_size l1 + total_size l2.
Proof. unfold total_size. by rewrite map_app, list_sum_app. Qed.

Lemma size_children n : size n = S (total_size (iter_child_nodes n)).
Proof. destruct n; unfold total_size; simpl; lia. Qed.

Lemma descendant_inv m n :
  descendant m n <-> m = n \/ exists c, c ∈ iter_child_nodes n /\ descendant m c.
Proof.
  split.
  - inversion 1; subst; eauto.
  - intros [->|(c & Hc & Hd)]; [constructor | by econstructor].
Qed.

(** [ast.walk] yields the nodes of the tree in its queue, all of them. *)
Lemma walk_queue_spec fuel todo m :
  total_size todo <= fuel ->
  m ∈ walk_queue fuel todo <-> exists t, t ∈ todo /\ descendant m t.
Proof.
  revert todo. induction fuel as [|fuel IH]; intros todo Hfuel.
  - destruct todo as [|n rest].
    + simpl. split; [by intros ?%elem_of_nil | by intros (? & ?%elem_of_nil & _)].
    + exfalso. unfold total_size in Hfuel. simpl in Hfuel.
      pose proof (size_children n). lia.
  - destruct todo as [|n rest]; simpl.
    + split; [by intros ?%elem_of_nil | by intros (? & ?%elem_of_nil & _)].
    + rewrite elem_of_cons, IH.
      * split.
        -- intros [->|(t & [Ht|Ht]%elem_of_app & Hd)].
           ++ exists n. split; [left | constructor].
           ++ exists t. split; [by right | done].
           ++ exists n. split; [left | by econstructor].
        -- intros (t & [->|Ht]%elem_of_cons & Hd).
           ++ apply descendant_inv in Hd as [->|(c & Hc & Hd)]; [by left|].
              right. exists c. split; [apply elem_of_app; by right | done].
           ++ right. exists t. split; [apply elem_of_app; by left | done].
      * rewrite total_size_app. unfold total_size in *. simpl in Hfuel.
        pose proof (size_children n). unfold total_size in *. lia.
Qed.

Lemma walk_spec tree m : m ∈ walk tree <-> descendant m tree.
Proof.
  unfold walk. rewrite walk_queue_spec.
  - split; [by intros (t & ->%list_elem_of_singleton & Hd) |].
    intros Hd. exists tree. split; [by apply list_elem_of_singleton | done].
  - unfold total_size. simpl. lia.
Qed.

(** ** The policy checker *)

Section Policy.
Context `{PyRuntime}.

Lemma check_nodes_cons n rest :
  check_nodes (n :: rest) =
  match node_error n with Some e => Some e | None => check_nodes rest end.
Proof.
  unfold node_error, disallowed_call. simpl.
  destruct (is_unsafe_node n); [done|].
  destruct (is_call n); [|done]. simpl.
  by destruct (is_allowed_function n || is_allowed_method n).
Qed.

Lemma check_nodes_None nodes :
  check_nodes nodes = None <-> forall n, n ∈ nodes -> node_error n = None.
Proof.
  induction nodes as [|n rest IH].
  - split; [by intros _ ? ?%elem_of_nil | done].
  - rewrite check_nodes_cons. split.
    + intros Hc m [->|Hm]%elem_of_cons.
      * by destruct (node_error n).
      * destruct (node_error n); [done|]. by apply IH.
    + intros Hall. rewrite (Hall n) by left.
      apply IH. intros m Hm. apply Hall. by right.
Qed.

Lemma check_nodes_Some nodes e :
  check_nodes nodes = Some e ->
  exists before n after,
    nodes = (before ++ n :: after)%list /\
    (forall m, m ∈ before -> node_error m = None) /\
    node_error n = Some e.
Proof.
  induction nodes as [|n rest IH]; [done|].
  rewrite check_nodes_cons. destruct (node_error n) as [e'|] eqn:En.
  - intros [= ->]. exists [], n, rest.
    split; [done|]. split; [by intros ? ?%elem_of_nil | done].
  - intros (before & m & after & -> & Hb & Hm)%IH.
    exists (n :: before), m, after. split; [done|]. split; [|done].
    intros k [->|Hk]%elem_of_cons; [done | by apply Hb].
Qed.

(** A rejection is raised at a node of the tree, the first that fails. *)
Lemma rejected_at query tree e :
  ast_parse query = inr tree ->
  preprocess_try true query = Some e ->
  exists n, descendant n tree /\ first_offender tree n /\ node_error n = Some e.
Proof.
  unfold preprocess_try. intros ->.
  intros (before & n & after & Hw & Hb & Hn)%check_nodes_Some.
  exists n. split; [|split; [|done]].
  - apply walk_spec. rewrite Hw. apply elem_of_app. right. left.
  - exists before, after. by rewrite Hn.
Qed.

Lemma offender_rejected query tree n :
  ast_parse query = inr tree ->
  descendant n tree -> is_Some (node_error n) ->
  is_Some (preprocess_try true query).
Proof.
  unfold preprocess_try. intros -> Hd [e He].
  destruct (check_nodes (walk tree)) eqn:Hc; [done|].
  rewrite check_nodes_None in Hc.
  rewrite Hc in He; [done|]. by apply walk_spec.
Qed.

Lemma message_in_stderr e : occurs_in (exc_msg e) (format_exception e).
Proof.
  unfold format_exception. do 3 apply occurs_in_app_r.
  apply occurs_in_app_l.
  destruct (String.eqb_spec (exc_msg e) "") as [->|_].
  - by exists "", (exc_class e).
  - do 2 apply occurs_in_app_r. apply occurs_in_refl.
Qed.

Lemma run_rejected query self e :
  preprocess_try (setup_done self) query = Some e ->
  _run query self =
  (Ret (Result "error" (VStr "") (format_exception e)),
   without_preprocess_info self).
Proof.
  intros Hp. unfold _run, preprocess. rewrite Hp. simpl.
  rewrite lookup_insert_eq. simpl.
  unfold without_preprocess_info, set_namespace. simpl.
  by rewrite delete_insert_eq.
Qed.

Lemma run_accepted query self :
  preprocess_try (setup_done self) query = None ->
  _run query self =
  match if_set (namespace_of self !! "_preprocess_info") with
  | Some info => (error_of info (VStr ""), without_preprocess_info self)
  | None => run_with_return query (without_preprocess_info self)
  end.
Proof. intros Hp. unfold _run, preprocess. by rewrite Hp. Qed.

Lemma is_allowed_method_spec f args :
  is_allowed_method (NCall f args) = true <->
  exists m, m ∈ ALLOW_METHODS /\ occurs_in m (unparse f).
Proof.
  unfold is_allowed_method. rewrite existsb_exists.
  split; intros (m & Hm & Hin); exists m.
  - by rewrite list_elem_of_In, <- str_in_spec.
  - by rewrite <- list_elem_of_In, str_in_spec.
Qed.

End Policy.

(** ** Claims on the policy checker *)

(** C9.  Under restriction the method allow-list is a substring test on
    the unparsed callee: a call is an allowed method exactly when its
    callee text contains one of [ALLOW_METHODS], and the loop of
    [preprocess] passes such a call node.  So for any receiver, a call of
    an attribute whose name starts with [show], [test] or [run], or holds
    one of the four double-underscore names anywhere, is allowed, and so
    is a call of a bare name that holds one of them; [obj.runtime()] is
    accepted. *)
Theorem allow_methods_is_substring_test :
  (forall f args,
     is_allowed_method (NCall f args) = true <->
     exists m, m ∈ ALLOW_METHODS /\ occurs_in m (unparse f)) /\
  (forall (R : PyRuntime) f args rest m,
     m ∈ ALLOW_METHODS -> occurs_in m (unparse f) ->
     check_nodes (NCall f args :: rest) = check_nodes rest) /\
  (forall receiver name suffix args,
     name ∈ ["show"; "test"; "run"] ->
     is_allowed_method (NCall (NAttribute receiver (name ++ suffix)) args) = true) /\
  (forall receiver before m after args,
     m ∈ ["__add__"; "__gt__"; "__lt__"; "__annotations__"] ->
     is_allowed_method
       (NCall (NAttribute receiver (before ++ m ++ after)) args) = true /\
     is_allowed_method (NCall (NName (before ++ m ++ after)) args) = true) /\
  @preprocess_try MiniPy.runtime true "obj.runtime()" = None.
Proof.
  split; [apply is_allowed_method_spec|]. split; [|split; [|split]].
  - intros R f args rest m Hm Hin.
    assert (is_allowed_method (NCall f args) = true) as Ha
        by (apply is_allowed_method_spec; eauto).
    cbn [check_nodes is_unsafe_node is_call]. rewrite Ha.
    by rewrite orb_true_r.
  - intros receiver name suffix args Hname. apply is_allowed_method_spec.
    exists ("." ++ name). split.
    + unfold ALLOW_METHODS.
      repeat (apply elem_of_cons in Hname as [->|Hname]; [set_solver|]).
      by apply elem_of_nil in Hname.
    + unfold unparse. cbn [unparse_at]. do 2 apply occurs_in_app_r.
      rewrite <- string_app_assoc. apply occurs_in_app_l, occurs_in_refl.
  - intros receiver before m after args Hm.
    assert (m ∈ ALLOW_METHODS) as Hallow.
    { unfold ALLOW_METHODS.
      repeat (apply elem_of_cons in Hm as [->|Hm]; [set_solver|]).
      by apply elem_of_nil in Hm. }
    split; apply is_allowed_method_spec; exists m; (split; [done|]).
    + unfold unparse. cbn [unparse_at]. do 4 apply occurs_in_app_r.
      apply occurs_in_app_l, occurs_in_refl.
    + unfold unparse. cbn [unparse_at]. apply occurs_in_app_r.
      apply occurs_in_app_l, occurs_in_refl.
  - vm_compute. reflexivity.
Qed.

Lemma allow_methods_is_substring_test_witness :
  @check_nodes MiniPy.runtime
    [NCall (NAttribute (NName "obj") "runtime") []; NPass] =
  @check_nodes MiniPy.runtime [NPass].
Proof.
  apply (proj1 (proj2 allow_methods_is_substring_test) MiniPy.runtime
           (NAttribute (NName "obj") "runtime") [] [NPass] ".run").
  - unfold ALLOW_METHODS. do 2 right. left.
  - exists "obj", "time". reflexivity.
Defined.

(** C4, amended.  Under restriction, for a source that parses: a call
    that matches neither allow-list makes the checker reject; when the
    tree has no import, function definition or class definition, the
    checker rejects if and only if the tree has such a call, and the
    reason is then the message for the first such call in the order of
    [ast.walk], which ends with the source text of that call.  The call
    [open('/etc/passwd')] is rejected, citing that call. *)
Theorem disallowed_call_rejected :
  (forall (R : PyRuntime) query tree,
     ast_parse query = inr tree ->
     ((exists c, descendant c tree /\ disallowed_call c = true) ->
      is_Some (preprocess_try true query)) /\
     ((forall n, descendant n tree -> is_unsafe_node n = false) ->
      (is_Some (preprocess_try true query) <->
       exists c, descendant c tree /\ disallowed_call c = true) /\
      (forall e, preprocess_try true query = Some e ->
         exists c, first_offender tree c /\ disallowed_call c = true /\
           e = ValueError 65 ("Usage of disallowed function/method: " ++ unparse c) /\
           occurs_in (unparse c) (format_exception e)))) /\
  (exists e,
     @_run MiniPy.runtime "open('/etc/passwd')" (fresh true) =
       (Ret (Result "error" (VStr "") (format_exception e)), fresh true) /\
     occurs_in "open('/etc/passwd')" (format_exception e)).
Proof.
  split.
  - intros R query tree Hparse.
    assert (forall c, disallowed_call c = true -> is_Some (node_error c)) as Hoff.
    { intros c Hc. unfold node_error. rewrite Hc.
      destruct (is_unsafe_node c); eauto. }
    split.
    + intros (c & Hd & Hc). eapply offender_rejected; eauto.
    + intros Hsafe.
      assert (forall e, preprocess_try true query = Some e ->
                exists c, first_offender tree c /\ disallowed_call c = true /\
                  e = ValueError 65
                        ("Usage of disallowed function/method: " ++ unparse c) /\
                  descendant c tree) as Hrej.
      { intros e (c & Hd & Hfirst & He)%(rejected_at _ tree); [|done].
        exists c. unfold node_error in He. rewrite (Hsafe c Hd) in He.
        destruct (disallowed_call c) eqn:Hc; [|done].
        injection He as <-. done. }
      split; [split|].
      * intros [e He]. destruct (Hrej e He) as (c & _ & Hc & _ & Hd). eauto.
      * intros (c & Hd & Hc). eapply offender_rejected; eauto.
      * intros e He. destruct (Hrej e He) as (c & Hfirst & Hc & -> & _).
        exists c. repeat split; try done.
        eapply occurs_in_trans; [|apply message_in_stderr].
        apply occurs_in_app_r, occurs_in_refl.
  - exists (@ValueError MiniPy.runtime 65
              "Usage of disallowed function/method: open('/etc/passwd')").
    split; [vm_compute; reflexivity|].
    eapply occurs_in_trans; [|apply message_in_stderr].
    by exists "Usage of disallowed function/method: ", "".
Qed.

Lemma disallowed_call_rejected_witness :
  is_Some (@preprocess_try MiniPy.runtime true "open('/etc/passwd')").
Proof.
  apply (proj1 (proj1 disallowed_call_rejected MiniPy.runtime
                  "open('/etc/passwd')"
                  (NModule [NExpr (NCall (NName "open")
                                     [NConstant (CStr "/etc/passwd")])])
                  eq_refl)).
  exists (NCall (NName "open") [NConstant (CStr "/etc/passwd")]).
  split; [|reflexivity].
  eapply descendant_child; [left|].
  eapply descendant_child; [left|]. constructor.
Defined.

(** C4 as stated fails: under restriction [import os] is rejected, and
    its tree holds no call at all. *)
Lemma import_rejected_without_call :
  @ast_parse MiniPy.runtime "import os" = inr (NModule [NImport ["os"]]) /\
  is_Some (@preprocess_try MiniPy.runtime true "import os") /\
  ~ (exists c, descendant c (NModule [NImport ["os"]]) /\ is_call c = true).
Proof.
  split; [reflexivity|]. split; [vm_compute; eauto|].
  intros (c & Hd & Hc). apply walk_spec in Hd.
  vm_compute in Hd.
  repeat (apply elem_of_cons in Hd as [->|Hd]; [by simpl in Hc|]).
  by apply elem_of_nil in Hd.
Qed.

(** C1, amended.  Under restriction, a source whose tree holds an import,
    a function definition or a class definition makes [_run] return an
    error with empty stdout and no worker thread started.  Its stderr is
    the formatted [ValueError] raised at the first offending node in the
    order of [ast.walk]: it names the class of that node when it is an
    import or a definition, and the text of the call when a disallowed
    call comes first.  The call leaves every entry of the namespace as it
    was, except that the key [_preprocess_info] is removed: the namespace
    is unchanged when that key was absent. *)
Theorem unsafe_construct_rejected (R : PyRuntime) query tree bad self :
  setup_done self = true ->
  ast_parse query = inr tree ->
  descendant bad tree -> is_unsafe_node bad = true ->
  exists e culprit,
    _run query self =
      (Ret (Result "error" (VStr "") (format_exception e)),
       without_preprocess_info self) /\
    descendant culprit tree /\ first_offender tree culprit /\
    (is_unsafe_node culprit = true /\
     exc_msg e = "Usage of " ++ class_name culprit ++ " nodes is not allowed" \/
     disallowed_call culprit = true /\
     exc_msg e = "Usage of disallowed function/method: " ++ unparse culprit) /\
    ((forall c, descendant c tree -> disallowed_call c = false) ->
     is_unsafe_node culprit = true /\
     occurs_in (class_name culprit) (format_exception e)) /\
    occurs_in (exc_msg e) (format_exception e) /\
    started (_run query self).2 = started self /\
    (forall k, k <> "_preprocess_info" ->
       namespace_of (_run query self).2 !! k = namespace_of self !! k) /\
    (namespace_of self !! "_preprocess_info" = None ->
       namespace_of (_run query self).2 = namespace_of self).
Proof.
  intros Hdone Hparse Hbad Hunsafe.
  assert (is_Some (preprocess_try true query)) as [e He].
  { eapply offender_rejected; eauto. unfold node_error. rewrite Hunsafe. eauto. }
  destruct (rejected_at _ _ _ Hparse He) as (culprit & Hd & Hfirst & Herr).
  assert (_run query self =
          (Ret (Result "error" (VStr "") (format_exception e)),
           without_preprocess_info self)) as Hrun
      by (apply run_rejected; by rewrite Hdone).
  exists e, culprit. rewrite Hrun. simpl.
  split; [done|]. split; [done|]. split; [done|].
  assert (is_unsafe_node culprit = true /\
          exc_msg e = "Usage of " ++ class_name culprit ++ " nodes is not allowed" \/
          disallowed_call culprit = true /\
          exc_msg e = "Usage of disallowed function/method: " ++ unparse culprit)
    as Hmsg.
  { unfold node_error in Herr. destruct (is_unsafe_node culprit).
    - left. by injection Herr as <-.
    - destruct (disallowed_call culprit); [|done]. right. by injection Herr as <-. }
  split; [done|]. split.
  { intros Hcalls. destruct Hmsg as [[Hu Hm]|[Hc _]].
    - split; [done|].
      eapply occurs_in_trans; [|apply message_in_stderr]. rewrite Hm.
      apply occurs_in_app_r, occurs_in_app_l, occurs_in_refl.
    - by rewrite (Hcalls culprit Hd) in Hc. }
  split; [apply message_in_stderr|]. split; [done|]. split.
  - intros k Hk. by apply lookup_delete_ne.
  - intros Hnone. by apply delete_id.
Qed.

Lemma unsafe_construct_rejected_witness :
  exists e,
    @_run MiniPy.runtime "import os" (fresh true) =
      (Ret (Result "error" (VStr "") (format_exception e)), fresh true) /\
    occurs_in (exc_msg e) (format_exception e).
Proof.
  destruct (unsafe_construct_rejected MiniPy.runtime "import os"
              (NModule [NImport ["os"]]) (NImport ["os"]) (fresh true)
              eq_refl eq_refl
              (descendant_child _ _ (NModule [NImport ["os"]])
                 (list_elem_of_here _ _) (descendant_self _))
              eq_refl)
    as (e & culprit & Hrun & _ & _ & _ & _ & Hmsg & _).
  exists e. split; [exact Hrun | exact Hmsg].
Defined.

(** C1 as stated fails: the namespace is not always unchanged.  After
    the accepted call [_preprocess_info = 0], the rejected call
    [import os] removes that entry. *)
Lemma rejection_changes_namespace :
  let self := (@_run MiniPy.runtime "_preprocess_info = 0" (fresh true)).2 in
  setup_done self = true /\
  namespace_of self = {[ "_preprocess_info" := VInt 0 ]} /\
  namespace_of (@_run MiniPy.runtime "import os" self).2 = ∅ /\
  namespace_of (@_run MiniPy.runtime "import os" self).2 <> namespace_of self.
Proof.
  vm_compute. repeat split; try reflexivity. discriminate.
Qed.

(** C3, amended.  While [setup_done] is false, a source that parses is
    allowed whatever its tree holds: [preprocess] returns it unchanged
    and leaves the interpreter as it was, and [_run] goes on to run it
    unless a true object sits under [_preprocess_info].  A source that
    does not parse is rejected with the fault of the parser whether
    [setup_done] is false or true: [_run] returns the error with that
    fault as stderr and the empty stdout, and starts no thread.
    [import sys] runs before setup and is rejected after; [x =] is
    rejected before setup and after. *)
Theorem unrestricted_source_allowed_if_parsed :
  (forall (R : PyRuntime) query self tree,
     setup_done self = false ->
     ast_parse query = inr tree ->
     preprocess_try (setup_done self) query = None /\
     preprocess self query = (query, self) /\
     _run query self =
       match if_set (namespace_of self !! "_preprocess_info") with
       | Some info => (error_of info (VStr ""), without_preprocess_info self)
       | None => run_with_return query (without_preprocess_info self)
       end) /\
  (forall (R : PyRuntime) query self e,
     ast_parse query = inl e ->
     preprocess_try (setup_done self) query = Some e /\
     preprocess self query =
       ("", set_namespace self
              (<["_preprocess_info" := VExcInfo e]> (namespace_of self))) /\
     _run query self =
       (Ret (Result "error" (VStr "") (format_exception e)),
        without_preprocess_info self) /\
     started (_run query self).2 = started self) /\
  @_run MiniPy.runtime "import sys" (fresh false) =
    (Ret (Result "success" (VStr "") ""),
     Interp {[ "sys" := MiniPy.module_sys ]} false 1) /\
  is_Some (@preprocess_try MiniPy.runtime true "import sys") /\
  (forall restricted,
     @_run MiniPy.runtime "x =" (fresh restricted) =
       (Ret (Result "error" (VStr "")
               (format_exception (MiniPy.SyntaxError "<unknown>" 1))),
        fresh restricted)).
Proof.
  split; [|split; [|split; [vm_compute; reflexivity|split]]].
  - intros R query self tree Hdone Hparse. rewrite Hdone.
    assert (preprocess_try false query = None) as Hp
        by (unfold preprocess_try; by rewrite Hparse).
    split; [done|]. split.
    + unfold preprocess. by rewrite Hdone, Hp.
    + apply run_accepted. by rewrite Hdone.
  - intros R query self e Hparse.
    assert (preprocess_try (setup_done self) query = Some e) as Hp
        by (unfold preprocess_try; by rewrite Hparse).
    split; [done|]. split; [unfold preprocess; by rewrite Hp|].
    rewrite (run_rejected _ _ e Hp). done.
  - vm_compute. eauto.
  - intros []; vm_compute; reflexivity.
Qed.

Lemma unrestricted_source_allowed_if_parsed_witness :
  @preprocess MiniPy.runtime (fresh false) "import sys" =
  ("import sys", fresh false).
Proof.
  apply (proj1 (proj2 (proj1 unrestricted_source_allowed_if_parsed
                         MiniPy.runtime "import sys" (fresh false)
                         (NModule [NImport ["sys"]]) eq_refl eq_refl))).
Defined.

(** C3 as stated fails: before setup the source [x =] is rejected. *)
Lemma unparsable_source_rejected_before_setup :
  setup_done (fresh false) = false /\
  @preprocess_try MiniPy.runtime (setup_done (fresh false)) "x =" =
    Some (MiniPy.SyntaxError "<unknown>" 1) /\
  @_run MiniPy.runtime "x =" (fresh false) =
    (Ret (Result "error" (VStr "")
            (format_exception (MiniPy.SyntaxError "<unknown>" 1))),
     fresh false).
Proof. vm_compute. repeat split; reflexivity. Qed.

(** ** The execution engine *)

Section Engine.
Context `{PyRuntime}.

Lemma recorded_stdout output ns :
  default (VStr "") (recorded output ns !! "_stdout_info") = VStr output.
Proof.
  unfold recorded. destruct (String.eqb_spec output "") as [->|_]; simpl.
  - by rewrite lookup_delete_eq.
  - by rewrite lookup_insert_eq.
Qed.

Lemma recorded_other output ns k :
  k <> "_stdout_info" -> recorded output ns !! k = ns !! k.
Proof.
  intros Hk. unfold recorded. destruct (negb _).
  - rewrite lookup_insert_ne, lookup_delete_ne; done.
  - by rewrite lookup_delete_ne.
Qed.

Lemma run_code_eq query ns budget :
  run_code query ns budget =
  match run_blocks query ns budget with
  | Returned output ns' _ => Finished (recorded output ns')
  | Raised e ns' => Finished (<["_exec_info" := VExcInfo e]> ns')
  | Exited e ns' => Died e ns'
  | Running ns' => Alive ns'
  end.
Proof. reflexivity. Qed.

(** What [_run] does with a source the checker allows, by the way the
    worker ends. *)
Lemma run_allowed query self :
  preprocess_try (setup_done self) query = None ->
  if_set (namespace_of self !! "_preprocess_info") = None ->
  _run query self =
  match run_blocks query (delete "_preprocess_info" (namespace_of self)) TIMEOUT with
  | Returned output ns _ =>
      (match if_set (ns !! "_exec_info") with
       | Some info => error_of info (VStr output)
       | None => Ret (Result "success" (VStr output) "")
       end,
       after_worker self (delete "_exec_info" (recorded output ns)))
  | Raised e ns =>
      (Ret (Result "error" (default (VStr "") (ns !! "_stdout_info"))
              (format_exception e)),
       after_worker self (delete "_exec_info" ns))
  | Exited _ ns =>
      (match if_set (ns !! "_exec_info") with
       | Some info => error_of info (default (VStr "") (ns !! "_stdout_info"))
       | None =>
           Ret (Result "success" (default (VStr "") (ns !! "_stdout_info")) "")
       end,
       after_worker self (delete "_exec_info" ns))
  | Running ns =>
      (Ret (Result "error" (default (VStr "") (ns !! "_stdout_info"))
              "Code execution timed out"),
       after_worker self ns)
  end.
Proof.
  intros Hp Hclean. rewrite run_accepted, Hclean by done.
  unfold run_with_return, without_preprocess_info, set_namespace. simpl.
  rewrite run_code_eq.
  destruct (run_blocks query _ TIMEOUT) as [output ns t|e ns|e ns|ns]; simpl.
  - rewrite recorded_stdout, recorded_other by done.
    by destruct (if_set (ns !! "_exec_info")).
  - rewrite lookup_insert_eq, lookup_insert_ne by done. simpl.
    by rewrite delete_insert_eq.
  - by destruct (if_set (ns !! "_exec_info")).
  - done.
Qed.

(** [run_blocks] on a source whose groups are [body] and then [tail]. *)
Lemma run_blocks_split query body tail ns t :
  split_code_blocks query = (body ++ [tail])%list -> tail <> "" ->
  run_blocks query ns t =
  match execute_code_blocks body ns t with
  | Returned output ns1 t1 =>
      match execute_last_line tail ns1 t1 with
      | Returned output' ns2 t2 => Returned (output ++ output') ns2 t2
      | Raised e ns2 => Raised e ns2
      | Exited e ns2 => Exited e ns2
      | Running ns2 => Running ns2
      end
  | Raised e ns1 => Raised e ns1
  | Exited e ns1 => Exited e ns1
  | Running ns1 => Running ns1
  end.
Proof.
  intros Hsplit Htail. unfold run_blocks, pop_last. rewrite Hsplit.
  rewrite removelast_last, last_last.
  destruct (String.eqb_spec tail "") as [->|_]; [done|]. simpl.
  unfold mbind, worker_bind, wbind.
  destruct body as [|b body]; simpl.
  - by destruct (execute_last_line tail ns t).
  - destruct (execute_code_blocks (b :: body) ns t) as [o ns1 t1| | |]; [|done..].
    by destruct (execute_last_line tail ns1 t1).
Qed.

End Engine.

(** ** Claims on the execution engine *)

(** C6.  For a source the checker allows, whose statement groups are
    [body] followed by a non-empty [tail], and whose worker leaves no
    true object under [_exec_info]: when [tail] compiles as an expression
    it is evaluated, and the result of the call is success with stdout the
    output of [body], then the text of the value unless it is [None], then
    what the evaluation printed; when [tail] does not compile as an
    expression it is executed, and stdout is the output of [body] then
    what the execution printed, with no text for a value.  The call
    [x = 5; x + 1] gives stdout [6], and [x = 1; x = 2] gives the empty
    stdout. *)
Theorem tail_evaluated_or_executed :
  (forall (R : PyRuntime) query self body tail out1 ns1 t1,
     preprocess_try (setup_done self) query = None ->
     if_set (namespace_of self !! "_preprocess_info") = None ->
     split_code_blocks query = (body ++ [tail])%list -> tail <> "" ->
     execute_code_blocks body
       (delete "_preprocess_info" (namespace_of self)) TIMEOUT =
       Returned out1 ns1 t1 ->
     (forall v printed ns2 t2,
        is_expression tail = true ->
        py_eval tail ns1 t1 = Returned (v, printed) ns2 t2 ->
        if_set (ns2 !! "_exec_info") = None ->
        execute_last_line tail ns1 t1 =
          Returned (value_text v ++ printed) ns2 t2 /\
        (_run query self).1 =
          Ret (Result "success" (VStr (out1 ++ value_text v ++ printed)) "")) /\
     (forall printed ns2 t2,
        is_expression tail = false ->
        py_exec tail ns1 t1 = Returned printed ns2 t2 ->
        if_set (ns2 !! "_exec_info") = None ->
        execute_last_line tail ns1 t1 = Returned printed ns2 t2 /\
        (_run query self).1 =
          Ret (Result "success" (VStr (out1 ++ printed)) ""))) /\
  (@_run MiniPy.runtime ("x = 5" ++ nl ++ "x + 1") (fresh true)).1 =
    Ret (Result "success" (VStr "6") "") /\
  (@_run MiniPy.runtime ("x = 1" ++ nl ++ "x = 2") (fresh true)).1 =
    Ret (Result "success" (VStr "") "").
Proof.
  split; [|split; vm_compute; reflexivity].
  intros R query self body tail out1 ns1 t1 Hp Hclean Hsplit Htail Hbody.
  split.
  - intros v printed ns2 t2 Hexpr Heval Hinfo.
    assert (execute_last_line tail ns1 t1 =
            Returned (value_text v ++ printed) ns2 t2) as Hlast.
    { unfold execute_last_line. rewrite Hexpr.
      unfold mbind, worker_bind, wbind. rewrite Heval. by destruct v. }
    split; [done|].
    rewrite run_allowed, (run_blocks_split _ body tail), Hbody, Hlast by done.
    simpl. by rewrite Hinfo.
  - intros printed ns2 t2 Hexpr Hexec Hinfo.
    assert (execute_last_line tail ns1 t1 = Returned printed ns2 t2) as Hlast.
    { unfold execute_last_line. rewrite Hexpr.
      unfold mbind, worker_bind, wbind. by rewrite Hexec. }
    split; [done|].
    rewrite run_allowed, (run_blocks_split _ body tail), Hbody, Hlast by done.
    simpl. by rewrite Hinfo.
Qed.

Lemma tail_evaluated_or_executed_witness :
  (@_run MiniPy.runtime ("x = 5" ++ nl ++ "x + 1") (fresh true)).1 =
  Ret (Result "success" (VStr ("" ++ value_text (VInt 6) ++ "")) "").
Proof.
  refine (proj2 (proj1 (proj1 tail_evaluated_or_executed MiniPy.runtime
                          ("x = 5" ++ nl ++ "x + 1") (fresh true)
                          ["x = 5"] "x + 1" "" {[ "x" := VInt 5 ]} 1198
                          _ _ _ _ _)
                   (VInt 6) "" {[ "x" := VInt 5 ]} 1195 _ _ _));
    try (vm_compute; reflexivity).
  discriminate.
Defined.

(** C7, amended.  The namespace persists from call to call.  For every
    key that is not one of the interpreter's own three: a rejected call
    leaves its binding as it was; an allowed call leaves the binding that
    the submitted code left, whether the code returned, raised (the
    statements before the fault have taken effect), exited or was still
    running at the timeout; and that binding is what the code of the next
    call finds.
    After [y = 10], the call [y + 5] has stdout [15]; so it has after
    [y = 10; zz], a call that faults on its second statement. *)
Theorem namespace_persists :
  (forall (R : PyRuntime) query self k,
     k ∉ bookkeeping ->
     (forall e, preprocess_try (setup_done self) query = Some e ->
        namespace_of (_run query self).2 !! k = namespace_of self !! k) /\
     (preprocess_try (setup_done self) query = None ->
      if_set (namespace_of self !! "_preprocess_info") = None ->
      let code :=
        run_blocks query (delete "_preprocess_info" (namespace_of self)) TIMEOUT in
      namespace_of (_run query self).2 !! k = left_by code !! k /\
      delete "_preprocess_info" (namespace_of (_run query self).2) !! k =
        left_by code !! k)) /\
  (let self := (@_run MiniPy.runtime "y = 10" (fresh true)).2 in
   namespace_of self !! "y" = Some (VInt 10) /\
   (@_run MiniPy.runtime "y + 5" self).1 =
     Ret (Result "success" (VStr "15") "")) /\
  (let first := @_run MiniPy.runtime ("y = 10" ++ nl ++ "zz") (fresh true) in
   (exists r, first.1 = Ret r /\ status r = "error") /\
   namespace_of first.2 !! "y" = Some (VInt 10) /\
   (@_run MiniPy.runtime "y + 5" first.2).1 =
     Ret (Result "success" (VStr "15") "")).
Proof.
  split; [|split].
  - intros R query self k Hk.
    assert (k <> "_stdout_info" /\ k <> "_exec_info" /\ k <> "_preprocess_info")
      as (Hk1 & Hk2 & Hk3) by (unfold bookkeeping in Hk; set_solver).
    split.
    + intros e He. rewrite (run_rejected _ _ e He). simpl.
      by apply lookup_delete_ne.
    + intros Hp Hclean code.
      assert (namespace_of (_run query self).2 !! k = left_by code !! k) as Hns.
      { rewrite run_allowed by done. fold code.
        destruct code as [output ns t|e ns|e ns|ns]; simpl.
        - by rewrite lookup_delete_ne, recorded_other.
        - by rewrite lookup_delete_ne.
        - by rewrite lookup_delete_ne.
        - done. }
      split; [done|]. by rewrite lookup_delete_ne.
  - vm_compute. split; reflexivity.
  - vm_compute. split; [eexists; split; reflexivity|]. split; reflexivity.
Qed.

Lemma namespace_persists_witness :
  namespace_of (@_run MiniPy.runtime "y = 10" (fresh true)).2 !! "y" =
  left_by (@run_blocks MiniPy.runtime "y = 10"
             (delete "_preprocess_info" (namespace_of (fresh true))) TIMEOUT)
    !! "y".
Proof.
  refine (proj1 (proj2 (proj1 namespace_persists MiniPy.runtime "y = 10"
                          (fresh true) "y" _) _ _));
    try (vm_compute; reflexivity).
  unfold bookkeeping.
  intros Hin. repeat (apply elem_of_cons in Hin as [Hin|Hin]; [discriminate|]).
  by apply elem_of_nil in Hin.
Defined.

(** C7 as stated fails for a binding under one of the interpreter's own
    keys: the call [_exec_info = 0] binds the name and succeeds,
    [run_with_return] pops the entry, and the next call does not find the
    name. *)
Lemma engine_key_binding_lost :
  let first := @_run MiniPy.runtime "_exec_info = 0" (fresh true) in
  left_by (@run_blocks MiniPy.runtime "_exec_info = 0" ∅ TIMEOUT)
    !! "_exec_info" = Some (VInt 0) /\
  first.1 = Ret (Result "success" (VStr "") "") /\
  namespace_of first.2 !! "_exec_info" = None /\
  (@_run MiniPy.runtime "_exec_info" first.2).1 =
    Ret (Result "error" (VStr "")
           (format_exception
              (MiniPy.error "NameError" "name '_exec_info' is not defined"))).
Proof. vm_compute. repeat split; reflexivity. Qed.



Lemma error_of_status info out r :
  error_of info out = Ret r -> status r = "error".
Proof. destruct info; simpl; try done. by intros [= <-]. Qed.

(** C8: the code does not do what the claim says.  On a restricted
    interpreter the call [_exec_info = 1] is allowed and its code returns,
    leaving the integer under [_exec_info]; [run_with_return] unpacks that
    object for [traceback.format_exception], which raises on the caller's
    thread: [_run] returns no record.  And a fault that
    [except Exception] does not catch is not reported at all: after the
    call [_stdout_info = 5; zz], the call [raise SystemExit] returns
    success, with the integer 5 as stdout. *)
Lemma exec_info_object_raises_in_caller :
  @preprocess_try MiniPy.runtime true "_exec_info = 1" = None /\
  (exists t,
     @run_blocks MiniPy.runtime "_exec_info = 1" ∅ TIMEOUT =
       Returned "" {[ "_exec_info" := VInt 1 ]} t) /\
  (@_run MiniPy.runtime "_exec_info = 1" (fresh true)).1 = Raises /\
  (let self :=
     (@_run MiniPy.runtime ("_stdout_info = 5" ++ nl ++ "zz") (fresh true)).2 in
   @preprocess_try MiniPy.runtime true "raise SystemExit" = None /\
   @run_blocks MiniPy.runtime "raise SystemExit" (namespace_of self) TIMEOUT =
     Exited (MiniPy.error "SystemExit" "") (namespace_of self) /\
   (@_run MiniPy.runtime "raise SystemExit" self).1 =
     Ret (Result "success" (VInt 5) "")).
Proof.
  split; [vm_compute; reflexivity|].
  split; [eexists; vm_compute; reflexivity|].
  split; [vm_compute; reflexivity|].
  vm_compute. repeat split; reflexivity.
Qed.

(** What a successful call leaves under [_stdout_info] is its stdout. *)
Lemma success_records_stdout `{PyRuntime} query self r :
  (_run query self).1 = Ret r -> status r = "success" ->
  default (VStr "") (namespace_of (_run query self).2 !! "_stdout_info") =
    stdout r /\
  namespace_of (_run query self).2 !! "_exec_info" = None.
Proof.
  destruct (preprocess_try (setup_done self) query) as [e|] eqn:Hp.
  { rewrite (run_rejected _ _ e Hp). simpl. by intros [= <-]. }
  destruct (if_set (namespace_of self !! "_preprocess_info")) as [info|] eqn:Hi.
  { rewrite run_accepted, Hi by done. simpl.
    intros Hr%error_of_status. by rewrite Hr. }
  rewrite run_allowed by done.
  destruct (run_blocks query _ TIMEOUT) as [output ns t|e ns|e ns|ns]; simpl.
  - destruct (if_set (ns !! "_exec_info")) as [info|].
    + intros Hr%error_of_status. by rewrite Hr.
    + intros [= <-] _. simpl.
      rewrite lookup_delete_ne, recorded_stdout, lookup_delete_eq; done.
  - by intros [= <-].
  - destruct (if_set (ns !! "_exec_info")) as [info|].
    + intros Hr%error_of_status. by rewrite Hr.
    + intros [= <-] _. simpl.
      rewrite lookup_delete_ne, lookup_delete_eq; done.
  - by intros [= <-].
Qed.

(** C10.  The interpreter keeps its records in the namespace the code
    runs in: a rejection is stored under [_preprocess_info], a fault of
    the code under [_exec_info], and the output of a call that succeeds
    under [_stdout_info], which that path alone clears.  So when the code
    of an allowed call raises or is still running at the timeout, the
    stdout reported is what the code leaves under [_stdout_info], and that
    entry stays; after a call that succeeded, a call whose code does not
    return and does not touch the entry reports the stdout of the earlier
    call: in an error when the code raised or is still running, and in
    what is reported for an exit that [except Exception] does not catch.
    Submitted code reads the entry, and overwrites it. *)
Theorem bookkeeping_in_namespace :
  (forall (R : PyRuntime) query self,
     (forall e, preprocess_try (setup_done self) query = Some e ->
        namespace_of (preprocess self query).2 =
          <["_preprocess_info" := VExcInfo e]> (namespace_of self)) /\
     (forall ns t e ns',
        run_blocks query ns t = Raised e ns' ->
        run_code query ns t = Finished (<["_exec_info" := VExcInfo e]> ns')) /\
     (forall ns t output ns' t',
        run_blocks query ns t = Returned output ns' t' ->
        exists ns'',
          run_code query ns t = Finished ns'' /\
          ns'' !! "_stdout_info" =
            (if String.eqb output "" then None else Some (VStr output))) /\
     (preprocess_try (setup_done self) query = None ->
      if_set (namespace_of self !! "_preprocess_info") = None ->
      forall ns,
        let code :=
          run_blocks query (delete "_preprocess_info" (namespace_of self))
            TIMEOUT in
        (exists e, code = Raised e ns) \/ code = Running ns ->
        exists err,
          (_run query self).1 =
            Ret (Result "error" (default (VStr "") (ns !! "_stdout_info")) err) /\
          namespace_of (_run query self).2 !! "_stdout_info" =
            ns !! "_stdout_info")) /\
  (forall (R : PyRuntime) q1 q2 self r1,
     (_run q1 self).1 = Ret r1 -> status r1 = "success" ->
     let self1 := (_run q1 self).2 in
     let code :=
       run_blocks q2 (delete "_preprocess_info" (namespace_of self1)) TIMEOUT in
     preprocess_try (setup_done self1) q2 = None ->
     if_set (namespace_of self1 !! "_preprocess_info") = None ->
     (forall output ns t, code <> Returned output ns t) ->
     left_by code !! "_stdout_info" = namespace_of self1 !! "_stdout_info" ->
     match code with
     | Exited _ ns =>
         (_run q2 self1).1 =
           match if_set (ns !! "_exec_info") with
           | Some info => error_of info (stdout r1)
           | None => Ret (Result "success" (stdout r1) "")
           end
     | _ => exists err, (_run q2 self1).1 = Ret (Result "error" (stdout r1) err)
     end) /\
  (let self := (@_run MiniPy.runtime "1 + 1" (fresh true)).2 in
   namespace_of self = {[ "_stdout_info" := VStr "2" ]} /\
   (@_run MiniPy.runtime "_stdout_info + '0'" self).1 =
     Ret (Result "success" (VStr "20") "") /\
   (exists err,
      (@_run MiniPy.runtime ("_stdout_info = 'mine'" ++ nl ++ "zz") self).1 =
        Ret (Result "error" (VStr "mine") err))).
Proof.
  split; [|split].
  - intros R query self. split; [|split; [|split]].
    + intros e He. unfold preprocess. by rewrite He.
    + intros ns t e ns' Hcode. by rewrite run_code_eq, Hcode.
    + intros ns t output ns' t' Hcode. rewrite run_code_eq, Hcode.
      eexists. split; [done|]. unfold recorded.
      destruct (String.eqb output ""); simpl.
      * by rewrite lookup_delete_eq.
      * by rewrite lookup_insert_eq.
    + intros Hp Hi ns code Hcode. rewrite run_allowed by done. fold code.
      destruct Hcode as [[e ->]| ->]; simpl.
      * eexists. split; [done|]. by rewrite lookup_delete_ne.
      * eexists. split; done.
  - intros R q1 q2 self r1 Hr1 Hs1 self1 code Hp Hi Hnot Hkeep.
    destruct (success_records_stdout _ _ _ Hr1 Hs1) as [Hout _].
    fold self1 in Hout. rewrite run_allowed by done. fold code.
    rewrite <- Hout, <- Hkeep.
    destruct code as [output ns t|e ns|e ns|ns]; simpl.
    + by destruct (Hnot output ns t).
    + eauto.
    + done.
    + eauto.
  - vm_compute. split; [reflexivity|]. split; [reflexivity|].
    eexists. reflexivity.
Qed.

Lemma bookkeeping_in_namespace_witness :
  exists err,
    (@_run MiniPy.runtime "zz" (@_run MiniPy.runtime "1 + 1" (fresh true)).2).1 =
    Ret (Result "error" (VStr "2") err).
Proof.
  refine (proj1 (proj2 bookkeeping_in_namespace) MiniPy.runtime "1 + 1" "zz"
            (fresh true) (Result "success" (VStr "2") "") _ _ _ _ _ _);
    try (vm_compute; reflexivity).
  intros output ns t Hcode. vm_compute in Hcode. discriminate Hcode.
Defined.

(** C2: the code does not do what the claim says.  After the call
    [print('a')], the call [print('b'); zz] faults in its tail; its body
    had printed [b], and the stdout returned is [a], the output of the
    call before. *)
Lemma fault_reports_earlier_output :
  let self := (@_run MiniPy.runtime "print('a')" (fresh false)).2 in
  (exists ns t,
     @execute_code_blocks MiniPy.runtime ["print('b')"] (namespace_of self)
       TIMEOUT = Returned ("b" ++ nl) ns t) /\
  (@_run MiniPy.runtime ("print('b')" ++ nl ++ "zz") self).1 =
    Ret (Result "error" (VStr ("a" ++ nl))
           (format_exception
              (MiniPy.error "NameError" "name 'zz' is not defined"))).
Proof.
  split; [do 2 eexists|]; vm_compute; reflexivity.
Qed.

(** C5: the code does not do what the claim says.  After the call
    [1 + 1], the call [while True: pass] is still running when the budget
    ends; it has written nothing, and the stdout returned is [2], the
    output of the call before. *)
Lemma timeout_reports_earlier_output :
  let self := (@_run MiniPy.runtime "1 + 1" (fresh true)).2 in
  @run_blocks MiniPy.runtime "while True: pass" (namespace_of self) TIMEOUT =
    Running (namespace_of self) /\
  (@_run MiniPy.runtime "while True: pass" self).1 =
    Ret (Result "error" (VStr "2") "Code execution timed out").
Proof. split; vm_compute; reflexivity. Qed.

(** ** Further properties of the interpreter *)


(** The node passes both tests of the loop of [preprocess]. *)
Definition node_passes (n : node) : Prop :=
  is_unsafe_node n = false /\
  (is_call n = true ->
   is_allowed_function n = true \/ is_allowed_method n = true).

Section Blocks.
Context `{PyRuntime}.

Lemma execute_code_blocks_app blocks1 blocks2 ns t :
  execute_code_blocks (blocks1 ++ blocks2) ns t =
  match execute_code_blocks blocks1 ns t with
  | Returned o1 ns1 t1 =>
      match execute_code_blocks blocks2 ns1 t1 with
      | Returned o2 ns2 t2 => Returned (o1 ++ o2) ns2 t2
      | Raised e ns2 => Raised e ns2
      | Exited e ns2 => Exited e ns2
      | Running ns2 => Running ns2
      end
  | Raised e ns1 => Raised e ns1
  | Exited e ns1 => Exited e ns1
  | Running ns1 => Running ns1
  end.
Proof.
  revert ns t. induction blocks1 as [|b blocks1 IH]; intros ns t.
  - simpl. unfold mret, worker_ret, wret.
    by destruct (execute_code_blocks blocks2 ns t).
  - simpl. unfold mbind, worker_bind, wbind, mret, worker_ret, wret.
    destruct (py_exec b ns t) as [o ns' t'| | |]; [|done..].
    rewrite IH.
    destruct (execute_code_blocks blocks1 ns' t') as [o1 ns1 t1| | |]; [|done..].
    destruct (execute_code_blocks blocks2 ns1 t1) as [o2 ns2 t2| | |]; [|done..].
    by rewrite string_app_assoc.
Qed.

Lemma node_error_None n : node_error n = None <-> node_passes n.
Proof.
  unfold node_error, node_passes, disallowed_call.
  destruct (is_unsafe_node n); [split; [done | by intros [? _]]|].
  destruct (is_call n); simpl.
  - destruct (is_allowed_function n), (is_allowed_method n); simpl.
    + split; [|done]. intros _. split; [done|]. intros _. by left.
    + split; [|done]. intros _. split; [done|]. intros _. by left.
    + split; [|done]. intros _. split; [done|]. intros _. by right.
    + split; [done|]. intros [_ Hcall]. by destruct (Hcall eq_refl).
  - split; [|done]. intros _. split; [done|]. done.
Qed.

End Blocks.

(** X1.  Under restriction, a source that parses is allowed exactly when
    every node of its tree passes the two tests of the loop: it is no
    import, function definition or class definition, and if it is a call
    it is an allowed function or an allowed method.  Arguments and
    callees are nodes of the tree, so an allowed call does not cover a
    disallowed call inside it. *)
Theorem accepted_iff_every_node_passes (R : PyRuntime) query tree :
  ast_parse query = inr tree ->
  preprocess_try true query = None <->
  forall n, descendant n tree -> node_passes n.
Proof.
  intros Hparse. unfold preprocess_try. rewrite Hparse, check_nodes_None.
  split.
  - intros Hall n Hn. apply node_error_None, Hall. by apply walk_spec.
  - intros Hall n Hn. apply node_error_None, Hall. by apply walk_spec.
Qed.

Lemma accepted_iff_every_node_passes_witness :
  node_passes (NCall (NName "create") [NConstant (CStr "x")]).
Proof.
  apply (proj1 (accepted_iff_every_node_passes MiniPy.runtime "create('x')"
                  (NModule [NExpr (NCall (NName "create")
                                     [NConstant (CStr "x")])])
                  eq_refl)).
  - vm_compute. reflexivity.
  - eapply descendant_child; [left|].
    eapply descendant_child; [left|]. constructor.
Defined.



(** X3.  A fault in a block before the tail ends the call: when the
    blocks before [b] return and [b] raises, [_run] reports that fault,
    with the namespace as it was at the fault (less [_exec_info]),
    whatever the blocks after [b] and the tail are: they are not run. *)
Theorem body_fault_skips_rest (R : PyRuntime)
    query self before b after tail o1 ns1 t1 e ns2 :
  preprocess_try (setup_done self) query = None ->
  if_set (namespace_of self !! "_preprocess_info") = None ->
  split_code_blocks query = ((before ++ b :: after) ++ [tail])%list ->
  execute_code_blocks before
    (delete "_preprocess_info" (namespace_of self)) TIMEOUT =
    Returned o1 ns1 t1 ->
  py_exec b ns1 t1 = Raised e ns2 ->
  _run query self =
    (Ret (Result "error" (default (VStr "") (ns2 !! "_stdout_info"))
            (format_exception e)),
     after_worker self (delete "_exec_info" ns2)).
Proof.
  intros Hp Hclean Hsplit Hbefore Hb.
  assert (run_blocks query (delete "_preprocess_info" (namespace_of self))
            TIMEOUT = Raised e ns2) as Hcode.
  { unfold run_blocks, pop_last. rewrite Hsplit, removelast_last, last_last.
    assert (execute_code_blocks (before ++ b :: after)
              (delete "_preprocess_info" (namespace_of self)) TIMEOUT =
            Raised e ns2) as Hbody.
    { rewrite execute_code_blocks_app, Hbefore. simpl.
      unfold mbind, worker_bind, wbind. by rewrite Hb. }
    assert ((0 <? length (before ++ b :: after))%nat = true) as ->.
    { rewrite length_app. simpl. apply Nat.ltb_lt. lia. }
    unfold mbind, worker_bind, wbind. by rewrite Hbody. }
  rewrite run_allowed by done. by rewrite Hcode.
Qed.

Lemma body_fault_skips_rest_witness :
  @_run MiniPy.runtime ("y = 10" ++ nl ++ "zz" ++ nl ++ "y = 11" ++ nl ++ "y")
    (fresh true) =
  (Ret (Result "error" (VStr "")
          (format_exception
             (MiniPy.error "NameError" "name 'zz' is not defined"))),
   Interp {[ "y" := VInt 10 ]} true 1).
Proof.
  refine (body_fault_skips_rest MiniPy.runtime _ (fresh true)
            ["y = 10"] "zz" ["y = 11"] "y" "" {[ "y" := VInt 10 ]} 1198
            (MiniPy.error "NameError" "name 'zz' is not defined")
            {[ "y" := VInt 10 ]} _ _ _ _ _);
    vm_compute; reflexivity.
Defined.

(** X4.  A call returns [success] in two cases only, and its stderr is
    then empty.  Either the submitted code returned: stdout is the output
    of its own blocks, and the entry [_stdout_info] is left holding that
    output, or absent when the output is empty, whatever was there before
    and whatever the code stored under it.  Or the code raised an
    exception that [except Exception] does not catch: nothing is
    recorded, and stdout is whatever sits under [_stdout_info], the output
    of an earlier call if the code left the entry alone.  Such an exit is
    reported as success whenever nothing true sits under [_exec_info]. *)
Theorem success_is_return_or_uncaught_exit (R : PyRuntime) query self :
  let code :=
    run_blocks query (delete "_preprocess_info" (namespace_of self)) TIMEOUT in
  (forall r,
     (_run query self).1 = Ret r -> status r = "success" ->
     stderr r = "" /\
     ((exists output ns t,
         code = Returned output ns t /\
         stdout r = VStr output /\
         namespace_of (_run query self).2 =
           delete "_exec_info" (recorded output ns) /\
         namespace_of (_run query self).2 !! "_stdout_info" =
           (if String.eqb output "" then None else Some (VStr output))) \/
      (exists e ns,
         code = Exited e ns /\
         stdout r = default (VStr "") (ns !! "_stdout_info") /\
         namespace_of (_run query self).2 = delete "_exec_info" ns))) /\
  (forall e ns,
     preprocess_try (setup_done self) query = None ->
     if_set (namespace_of self !! "_preprocess_info") = None ->
     code = Exited e ns ->
     if_set (ns !! "_exec_info") = None ->
     _run query self =
       (Ret (Result "success" (default (VStr "") (ns !! "_stdout_info")) ""),
        after_worker self (delete "_exec_info" ns))).
Proof.
  intros code. split.
  - intros r.
    destruct (preprocess_try (setup_done self) query) as [e|] eqn:Hp.
    { rewrite (run_rejected _ _ e Hp). simpl. by intros [= <-]. }
    destruct (if_set (namespace_of self !! "_preprocess_info")) as [info|] eqn:Hi.
    { rewrite run_accepted, Hi by done. simpl.
      intros Hr%error_of_status. by rewrite Hr. }
    rewrite run_allowed by done. fold code.
    destruct code as [output ns t|e ns|e ns|ns]; simpl.
    + destruct (if_set (ns !! "_exec_info")) as [info|].
      * intros Hr%error_of_status. by rewrite Hr.
      * intros [= <-] _. simpl. split; [done|]. left.
        exists output, ns, t. repeat split; try done.
        rewrite lookup_delete_ne by done. unfold recorded.
        destruct (String.eqb output ""); simpl.
        -- by rewrite lookup_delete_eq.
        -- by rewrite lookup_insert_eq.
    + by intros [= <-].
    + destruct (if_set (ns !! "_exec_info")) as [info|].
      * intros Hr%error_of_status. by rewrite Hr.
      * intros [= <-] _. simpl. split; [done|]. right. by exists e, ns.
    + by intros [= <-].
  - intros e ns Hp Hclean Hcode Hinfo. rewrite run_allowed by done.
    fold code. rewrite Hcode. by rewrite Hinfo.
Qed.

Lemma success_is_return_or_uncaught_exit_witness :
  @_run MiniPy.runtime "raise SystemExit"
    (@_run MiniPy.runtime "1 + 1" (fresh true)).2 =
  (Ret (Result "success" (VStr "2") ""),
   Interp {[ "_stdout_info" := VStr "2" ]} true 2).
Proof.
  refine (proj2 (success_is_return_or_uncaught_exit MiniPy.runtime
                   "raise SystemExit"
                   (@_run MiniPy.runtime "1 + 1" (fresh true)).2)
            (MiniPy.error "SystemExit" "") {[ "_stdout_info" := VStr "2" ]}
            _ _ _ _);
    vm_compute; reflexivity.
Defined.

(** X5.  A source with no statement group, or whose only group is the
    empty string, runs no code: the call returns success with the empty
    stdout (or the error stored under [_exec_info], if one is there), and
    all it does to the namespace is to pop the three keys of the
    interpreter, so it also forgets the output of the call before. *)
Theorem empty_source_runs_nothing (R : PyRuntime) query self :
  preprocess_try (setup_done self) query = None ->
  if_set (namespace_of self !! "_preprocess_info") = None ->
  split_code_blocks query = [] \/ split_code_blocks query = [""] ->
  let ns := delete "_preprocess_info" (namespace_of self) in
  _run query self =
    (match if_set (ns !! "_exec_info") with
     | Some info => error_of info (VStr "")
     | None => Ret (Result "success" (VStr "") "")
     end,
     after_worker self (delete "_exec_info" (delete "_stdout_info" ns))).
Proof.
  intros Hp Hclean Hsplit ns.
  assert (run_blocks query ns TIMEOUT = Returned "" ns TIMEOUT) as Hcode.
  { unfold run_blocks. by destruct Hsplit as [-> | ->]. }
  rewrite run_allowed by done. fold ns. by rewrite Hcode.
Qed.

Lemma empty_source_runs_nothing_witness :
  @_run MiniPy.runtime "" (@_run MiniPy.runtime "1 + 1" (fresh true)).2 =
  (Ret (Result "success" (VStr "") ""), Interp ∅ true 2).
Proof.
  refine (empty_source_runs_nothing MiniPy.runtime ""
            (@_run MiniPy.runtime "1 + 1" (fresh true)).2 _ _ _);
    try (vm_compute; reflexivity).
  left. vm_compute. reflexivity.
Defined.

(** X6.  [setup] runs its code on the caller's thread without the checks
    of [preprocess] and whatever the flag is, and starts no thread.  When
    the code returns, the interpreter is left with the namespace of the
    code and its output recorded under [_stdout_info], and restricted.
    When the code raises, the namespace is the one at the fault with the
    exception under [_exec_info], and the interpreter is restricted all
    the same; [setup] does not pop that entry, so the next allowed call
    whose code returns and leaves the entry alone is reported as an error
    with the traceback of the setup code, and its own output as stdout.
    An exception that [except Exception] does not catch leaves [setup]
    before the flag is set, and while the code runs [setup] has not
    returned. *)
Theorem setup_fault_surfaces_in_next_call (R : PyRuntime) budget code self :
  setup budget code self =
    match run_blocks code (namespace_of self) budget with
    | Returned output ns _ =>
        SetupReturned (Interp (recorded output ns) true (started self))
    | Raised e ns =>
        SetupReturned
          (Interp (<["_exec_info" := VExcInfo e]> ns) true (started self))
    | Exited e ns =>
        SetupRaised e (Interp ns (setup_done self) (started self))
    | Running ns => SetupRunning (Interp ns (setup_done self) (started self))
    end /\
  (forall e ns, run_blocks code (namespace_of self) budget = Raised e ns ->
     let self' := Interp (<["_exec_info" := VExcInfo e]> ns) true (started self) in
     setup budget code self = SetupReturned self' /\
     forall query output ns2 t2,
       preprocess_try true query = None ->
       if_set (namespace_of self' !! "_preprocess_info") = None ->
       run_blocks query (delete "_preprocess_info" (namespace_of self'))
         TIMEOUT = Returned output ns2 t2 ->
       ns2 !! "_exec_info" = Some (VExcInfo e) ->
       (_run query self').1 =
         Ret (Result "error" (VStr output) (format_exception e))).
Proof.
  assert (setup budget code self =
          match run_blocks code (namespace_of self) budget with
          | Returned output ns _ =>
              SetupReturned (Interp (recorded output ns) true (started self))
          | Raised e ns =>
              SetupReturned
                (Interp (<["_exec_info" := VExcInfo e]> ns) true (started self))
          | Exited e ns =>
              SetupRaised e (Interp ns (setup_done self) (started self))
          | Running ns =>
              SetupRunning (Interp ns (setup_done self) (started self))
          end) as Hsetup.
  { unfold setup. rewrite run_code_eq.
    by destruct (run_blocks code (namespace_of self) budget). }
  split; [done|].
  intros e ns Hcode self'. split.
  - by rewrite Hsetup, Hcode.
  - intros query output ns2 t2 Hp Hclean Hquery Hinfo.
    rewrite run_allowed by done. rewrite Hquery. simpl. by rewrite Hinfo.
Qed.

Lemma setup_fault_surfaces_in_next_call_witness :
  (@_run MiniPy.runtime "1 + 1"
     (Interp (<["_exec_info" :=
                VExcInfo (MiniPy.error "NameError" "name 'zz' is not defined")]> ∅)
        true 0)).1 =
  Ret (Result "error" (VStr "2")
         (format_exception
            (MiniPy.error "NameError" "name 'zz' is not defined"))).
Proof.
  refine (proj2 (proj2
            (setup_fault_surfaces_in_next_call MiniPy.runtime 100 "zz"
               (fresh false))
            (MiniPy.error "NameError" "name 'zz' is not defined") ∅ _)
            "1 + 1" "2"
            (<["_exec_info" :=
               VExcInfo (MiniPy.error "NameError" "name 'zz' is not defined")]> ∅)
            1197 _ _ _ _);
    vm_compute; reflexivity.
Defined.




(** X8.  A fault is reported once.  After an allowed call whose code
    raised, the entry [_exec_info] is gone from the namespace; so the next
    allowed call whose code returns, leaving no such entry, is a success
    with its own output. *)
Theorem fault_reported_once (R : PyRuntime) q1 q2 self e ns1 :
  preprocess_try (setup_done self) q1 = None ->
  if_set (namespace_of self !! "_preprocess_info") = None ->
  run_blocks q1 (delete "_preprocess_info" (namespace_of self)) TIMEOUT =
    Raised e ns1 ->
  let self1 := (_run q1 self).2 in
  (exists out, (_run q1 self).1 = Ret (Result "error" out (format_exception e))) /\
  namespace_of self1 !! "_exec_info" = None /\
  (forall output ns2 t2,
     preprocess_try (setup_done self1) q2 = None ->
     if_set (namespace_of self1 !! "_preprocess_info") = None ->
     run_blocks q2 (delete "_preprocess_info" (namespace_of self1)) TIMEOUT =
       Returned output ns2 t2 ->
     ns2 !! "_exec_info" = None ->
     (_run q2 self1).1 = Ret (Result "success" (VStr output) "")).
Proof.
  intros Hp Hclean Hcode self1.
  assert (_run q1 self =
          (Ret (Result "error" (default (VStr "") (ns1 !! "_stdout_info"))
                  (format_exception e)),
           after_worker self (delete "_exec_info" ns1))) as Hrun
      by (rewrite run_allowed by done; by rewrite Hcode).
  split; [rewrite Hrun; eauto|]. split.
  - unfold self1. rewrite Hrun. simpl. apply lookup_delete_eq.
  - intros output ns2 t2 Hp2 Hclean2 Hcode2 Hinfo.
    rewrite run_allowed by done. rewrite Hcode2. simpl. by rewrite Hinfo.
Qed.

Lemma fault_reported_once_witness :
  (@_run MiniPy.runtime "1 + 1" (@_run MiniPy.runtime "zz" (fresh true)).2).1 =
  Ret (Result "success" (VStr "2") "").
Proof.
  refine (proj2 (proj2 (fault_reported_once MiniPy.runtime "zz" "1 + 1"
                          (fresh true)
                          (MiniPy.error "NameError" "name 'zz' is not defined")
                          ∅ _ _ _))
            "2" ∅ 1197 _ _ _ _);
    vm_compute; reflexivity.
Defined.


Lemma walk_queue_prefix first fuel rest :
  length first <= fuel ->
  exists rest',
    walk_queue fuel (first ++ rest) =
    (first ++ walk_queue (fuel - length first) rest')%list.
Proof.
  revert fuel rest. induction first as [|n first IH]; intros fuel rest Hfuel.
  - exists rest. simpl. by rewrite Nat.sub_0_r.
  - destruct fuel as [|fuel]; simpl in Hfuel; [lia|].
    destruct (IH fuel (rest ++ iter_child_nodes n)%list) as [rest' Hrest'];
      [lia|].
    exists rest'. simpl. by rewrite <- app_assoc, Hrest'.
Qed.

Lemma total_size_length todo : length todo <= total_size todo.
Proof.
  induction todo as [|n todo IH]; [done|].
  unfold total_size in *. simpl. pose proof (size_children n). lia.
Qed.

Lemma check_nodes_passing `{PyRuntime} passing rest :
  (forall n, n ∈ passing -> node_error n = None) ->
  check_nodes (passing ++ rest) = check_nodes rest.
Proof.
  induction passing as [|n passing IH]; intros Hall; [done|].
  simpl app. rewrite check_nodes_cons, (Hall n) by left.
  apply IH. intros m Hm. apply Hall. by right.
Qed.

(** X9.  [ast.walk] yields the statements of the module before anything
    nested in them, so under restriction the first import, function
    definition or class definition among the top-level statements is what
    the rejection names, whatever calls the statements before it hold.
    [open('x')] followed by [import os] is rejected for the import. *)
Theorem toplevel_unsafe_statement_named_first (R : PyRuntime)
    query before bad after :
  ast_parse query = inr (NModule (before ++ bad :: after)) ->
  (forall s, s ∈ before -> is_unsafe_node s = false /\ is_call s = false) ->
  is_unsafe_node bad = true ->
  preprocess_try true query =
    Some (ValueError 61
            ("Usage of " ++ class_name bad ++ " nodes is not allowed")).
Proof.
  intros Hparse Hbefore Hbad. unfold preprocess_try. rewrite Hparse.
  unfold walk. simpl size. simpl walk_queue.
  destruct (walk_queue_prefix (before ++ [bad])
              (list_sum (map size (before ++ bad :: after))) after)
    as [rest' Hwalk].
  { pose proof (total_size_length (before ++ bad :: after)) as Hlen.
    unfold total_size in Hlen. rewrite !length_app in *. simpl in *. lia. }
  rewrite <- app_assoc in Hwalk. simpl in Hwalk. rewrite Hwalk.
  rewrite check_nodes_cons. unfold node_error at 1. simpl.
  rewrite <- app_assoc. rewrite check_nodes_passing.
  - simpl app. rewrite check_nodes_cons. unfold node_error. by rewrite Hbad.
  - intros s Hs. destruct (Hbefore s Hs) as [Hu Hc].
    unfold node_error, disallowed_call. by rewrite Hu, Hc.
Qed.

Lemma toplevel_unsafe_statement_named_first_witness :
  @preprocess_try MiniPy.runtime true ("open('x')" ++ nl ++ "import os") =
  Some (@ValueError MiniPy.runtime 61 "Usage of Import nodes is not allowed").
Proof.
  refine (toplevel_unsafe_statement_named_first MiniPy.runtime
            ("open('x')" ++ nl ++ "import os")
            [NExpr (NCall (NName "open") [NConstant (CStr "x")])]
            (NImport ["os"]) [] eq_refl _ eq_refl).
  intros s Hs. apply list_elem_of_singleton in Hs as ->. by split.
Defined.

(** ** The agent's repair of a function call

    [fix_run_python] of [creator/agents/interpreter_agent.py].  The
    function call of a message is a dictionary whose values, under [name]
    and [arguments], are strings. *)
Module Agent.

(** A value read from JSON text; numbers are integers. *)
Inductive json : Type :=
| JNull
| JBool (b : bool)
| JNum (z : Z)
| JStr (s : string)
| JArr (items : list json)
| JObj (members : list (string * json)).

(** Truth value of what [json.loads] gives, as tested by [not x]. *)
Definition json_truthy (v : json) : bool :=
  match v with
  | JNull => false
  | JBool b => b
  | JNum z => negb (Z.eqb z 0)
  | JStr s => negb (String.eqb s "")
  | JArr items => negb (Nat.eqb (length items) 0)
  | JObj members => negb (Nat.eqb (length members) 0)
  end.

(** How [json.dumps(..., ensure_ascii=False)] writes one character of a
    string: the quote, the backslash and the control characters are
    escaped, every other character is written as it is. *)
Definition json_escape_char (c : ascii) : string :=
  let n := nat_of_ascii c in
  if (n =? 34)%nat then bs ++ dq
  else if (n =? 92)%nat then bs ++ bs
  else if (n =? 10)%nat then bs ++ "n"
  else if (n =? 13)%nat then bs ++ "r"
  else if (n =? 9)%nat then bs ++ "t"
  else if (n =? 8)%nat then bs ++ "b"
  else if (n =? 12)%nat then bs ++ "f"
  else if (n <? 32)%nat then
    bs ++ "u00" ++ String (hex_digit (n / 16))
                     (String (hex_digit (n mod 16)) EmptyString)
  else String c EmptyString.

Fixpoint json_escape (s : string) : string :=
  match s with
  | EmptyString => ""
  | String c s' => json_escape_char c ++ json_escape s'
  end.

Definition json_string (s : string) : string := dq ++ json_escape s ++ dq.

(** [json.dumps({"language": "python", "code": arguments}, ensure_ascii=False)]. *)
Definition dumps_request (arguments : string) : string :=
  "{" ++ json_string "language" ++ ": " ++ json_string "python" ++ ", " ++
  json_string "code" ++ ": " ++ json_string arguments ++ "}".

Section Fix.
(** [langchain.output_parsers.json.parse_partial_json]: the value read,
    [None] when the text cannot be read. *)
Variable parse_partial_json : string -> option json.

(** [not arguments_json]. *)
Definition not_true (arguments_json : option json) : bool :=
  match arguments_json with
  | Some v => negb (json_truthy v)
  | None => true
  end.

Definition fix_run_python (function_call : gmap string string)
  : gmap string string :=
  let name := default "run_code" (function_call !! "name") in
  let arguments := default "{}" (function_call !! "arguments") in
  let arguments_json := parse_partial_json arguments in
  if negb (String.eqb name "run_code") || not_true arguments_json then
    <["name" := "run_code"]>
      (<["arguments" := dumps_request arguments]> ∅)
  else function_call.

End Fix.

(** *** A reader of JSON text

    A strict reader, enough to read back what [json.dumps] writes: it
    stands for [parse_partial_json] where a statement needs one. *)

Definition is_ws (c : ascii) : bool :=
  let n := nat_of_ascii c in
  (n =? 32)%nat || (n =? 9)%nat || (n =? 10)%nat || (n =? 13)%nat.

Fixpoint skip_ws (cs : list ascii) : list ascii :=
  match cs with
  | c :: cs' => if is_ws c then skip_ws cs' else cs
  | [] => []
  end.

Definition hex_value (c : ascii) : option nat :=
  let n := nat_of_ascii c in
  if (48 <=? n)%nat && (n <=? 57)%nat then Some (n - 48)
  else if (97 <=? n)%nat && (n <=? 102)%nat then Some (n - 87)
  else if (65 <=? n)%nat && (n <=? 70)%nat then Some (n - 55)
  else None.

(** The characters of a string literal after its opening quote, and what
    follows its closing quote.  An escape above one byte is not read. *)
Fixpoint read_string (cs : list ascii) : option (string * list ascii) :=
  match cs with
  | [] => None
  | c :: cs' =>
      if (nat_of_ascii c =? 34)%nat then Some ("", cs')
      else if (nat_of_ascii c =? 92)%nat then
        match cs' with
        | e :: cs'' =>
            let keep (d : ascii) (rest : list ascii) :=
              '(s, after) ← read_string rest; Some (String d s, after) in
            let n := nat_of_ascii e in
            if (n =? 34)%nat || (n =? 92)%nat || (n =? 47)%nat then keep e cs''
            else if (n =? 110)%nat then keep (ascii_of_nat 10) cs''
            else if (n =? 114)%nat then keep (ascii_of_nat 13) cs''
            else if (n =? 116)%nat then keep (ascii_of_nat 9) cs''
            else if (n =? 98)%nat then keep (ascii_of_nat 8) cs''
            else if (n =? 102)%nat then keep (ascii_of_nat 12) cs''
            else if (n =? 117)%nat then
              match cs'' with
              | h1 :: h2 :: h3 :: h4 :: cs''' =>
                  a ← hex_value h1; b ← hex_value h2;
                  c' ← hex_value h3; d ← hex_value h4;
                  if (a =? 0)%nat && (b =? 0)%nat
                  then keep (ascii_of_nat (16 * c' + d)) cs'''
                  else None
              | _ => None
              end
            else None
        | [] => None
        end
      else '(s, after) ← read_string cs'; Some (String c s, after)
  end.

Fixpoint read_digits (acc : Z) (cs : list ascii) : Z * list ascii :=
  match cs with
  | c :: cs' =>
      let n := nat_of_ascii c in
      if (48 <=? n)%nat && (n <=? 57)%nat
      then read_digits (10 * acc + Z.of_nat (n - 48)) cs'
      else (acc, cs)
  | [] => (acc, [])
  end.

Definition starts_with (word : string) (cs : list ascii) : option (list ascii) :=
  let w := list_ascii_of_string word in
  if bool_decide (take (length w) cs = w) then Some (drop (length w) cs)
  else None.

(** A value at the head of the text, and the text after it. *)
Fixpoint read_value (fuel : nat) (cs : list ascii) : option (json * list ascii) :=
  match fuel with
  | O => None
  | S fuel' =>
      match skip_ws cs with
      | [] => None
      | c :: cs' =>
          let n := nat_of_ascii c in
          if (n =? 34)%nat then
            '(s, after) ← read_string cs'; Some (JStr s, after)
          else if (n =? 123)%nat then
            match skip_ws cs' with
            | c' :: after =>
                if (nat_of_ascii c' =? 125)%nat then Some (JObj [], after)
                else '(ms, after') ← read_members fuel' cs'; Some (JObj ms, after')
            | [] => None
            end
          else if (n =? 91)%nat then
            match skip_ws cs' with
            | c' :: after =>
                if (nat_of_ascii c' =? 93)%nat then Some (JArr [], after)
                else '(vs, after') ← read_items fuel' cs'; Some (JArr vs, after')
            | [] => None
            end
          else if (n =? 45)%nat then
            match cs' with
            | d :: _ =>
                if (48 <=? nat_of_ascii d)%nat && (nat_of_ascii d <=? 57)%nat
                then let '(z, after) := read_digits 0 cs' in Some (JNum (- z), after)
                else None
            | [] => None
            end
          else if (48 <=? n)%nat && (n <=? 57)%nat then
            let '(z, after) := read_digits 0 (c :: cs') in Some (JNum z, after)
          else
            match starts_with "true" (c :: cs'), starts_with "false" (c :: cs'),
                  starts_with "null" (c :: cs') with
            | Some after, _, _ => Some (JBool true, after)
            | _, Some after, _ => Some (JBool false, after)
            | _, _, Some after => Some (JNull, after)
            | _, _, _ => None
            end
      end
  end
with read_members (fuel : nat) (cs : list ascii)
  : option (list (string * json) * list ascii) :=
  match fuel with
  | O => None
  | S fuel' =>
      match skip_ws cs with
      | q :: cs' =>
          if (nat_of_ascii q =? 34)%nat then
            '(k, after) ← read_string cs';
            match skip_ws after with
            | colon :: after' =>
                if (nat_of_ascii colon =? 58)%nat then
                  '(v, after'') ← read_value fuel' after';
                  match skip_ws after'' with
                  | sep :: rest =>
                      if (nat_of_ascii sep =? 125)%nat then Some ([(k, v)], rest)
                      else if (nat_of_ascii sep =? 44)%nat then
                        '(ms, rest') ← read_members fuel' rest;
                        Some ((k, v) :: ms, rest')
                      else None
                  | [] => None
                  end
                else None
            | [] => None
            end
          else None
      | [] => None
      end
  end
with read_items (fuel : nat) (cs : list ascii)
  : option (list json * list ascii) :=
  match fuel with
  | O => None
  | S fuel' =>
      '(v, after) ← read_value fuel' cs;
      match skip_ws after with
      | sep :: rest =>
          if (nat_of_ascii sep =? 93)%nat then Some ([v], rest)
          else if (nat_of_ascii sep =? 44)%nat then
            '(vs, rest') ← read_items fuel' rest; Some (v :: vs, rest')
          else None
      | [] => None
      end
  end.

(** The value that the whole of [text] is. *)
Definition read_json (text : string) : option json :=
  let cs := list_ascii_of_string text in
  match read_value (S (length cs)) cs with
  | Some (v, after) =>
      match skip_ws after with [] => Some v | _ => None end
  | None => None
  end.

End Agent.

(** X10.  [fix_run_python] looks at the name and at the arguments of
    the call.  A call that names [run_code], or no function, and whose
    arguments the parser reads as a true value is returned as it is.  A
    call that names another function, or whose arguments the parser does
    not read or reads as a false value, is replaced by a call with two
    entries: the name [run_code], and as arguments the JSON text of a
    python request with the original arguments as code.  Either way the
    result names [run_code] or nothing.  When the parser reads that JSON
    text back as a true value, repairing a repaired call changes
    nothing. *)
Theorem fix_run_python_idempotent
    (parse_partial_json : string -> option Agent.json)
    (function_call : gmap string string) :
  let name := default "run_code" (function_call !! "name") in
  let arguments := default "{}" (function_call !! "arguments") in
  let repaired : gmap string string :=
    <["name" := "run_code"]>
      (<["arguments" := Agent.dumps_request arguments]> ∅) in
  let fixed := Agent.fix_run_python parse_partial_json function_call in
  (name = "run_code" ->
   Agent.not_true (parse_partial_json arguments) = false ->
   fixed = function_call) /\
  (name <> "run_code" \/ Agent.not_true (parse_partial_json arguments) = true ->
   fixed = repaired /\
   fixed !! "name" = Some "run_code" /\
   fixed !! "arguments" = Some (Agent.dumps_request arguments) /\
   forall k, k <> "name" -> k <> "arguments" -> fixed !! k = None) /\
  default "run_code" (fixed !! "name") = "run_code" /\
  (Agent.not_true (parse_partial_json (Agent.dumps_request arguments)) = false ->
   Agent.fix_run_python parse_partial_json fixed = fixed).
Proof.
  intros name arguments repaired fixed.
  assert (Agent.not_true (parse_partial_json (Agent.dumps_request arguments))
            = false ->
          Agent.fix_run_python parse_partial_json repaired = repaired)
    as Hrepaired.
  { intros Hread. unfold Agent.fix_run_python, repaired.
    rewrite lookup_insert_eq, lookup_insert_ne by done.
    rewrite lookup_insert_eq. simpl. by rewrite Hread. }
  assert (fixed =
          if negb (String.eqb name "run_code")
             || Agent.not_true (parse_partial_json arguments)
          then repaired else function_call) as Hfixed by done.
  assert (repaired !! "name" = Some "run_code") as Hname'
      by (unfold repaired; by rewrite lookup_insert_eq).
  assert (fixed = repaired ->
          fixed = repaired /\
          fixed !! "name" = Some "run_code" /\
          fixed !! "arguments" = Some (Agent.dumps_request arguments) /\
          forall k, k <> "name" -> k <> "arguments" -> fixed !! k = None)
    as Hentries.
  { intros ->. split; [done|]. split; [done|]. split.
    - unfold repaired. rewrite lookup_insert_ne by done.
      by rewrite lookup_insert_eq.
    - intros k Hk1 Hk2. unfold repaired.
      rewrite !lookup_insert_ne by done. apply lookup_empty. }
  destruct (String.eqb_spec name "run_code") as [Hname|Hname];
    simpl in Hfixed.
  - destruct (Agent.not_true (parse_partial_json arguments)) eqn:Hargs.
    + split; [done|]. split; [by intros _; apply Hentries|].
      rewrite Hfixed. split; [by rewrite Hname' | done].
    + split; [by intros _ _|]. split; [by intros [?|?]|].
      rewrite Hfixed. split; [done|]. intros _.
      unfold Agent.fix_run_python. fold arguments. fold name.
      rewrite Hname, Hargs. done.
  - split; [done|]. split; [by intros _; apply Hentries|].
    rewrite Hfixed. split; [by rewrite Hname' | done].
Qed.

Lemma fix_run_python_idempotent_witness :
  Agent.fix_run_python Agent.read_json
    (Agent.fix_run_python Agent.read_json
       {[ "name" := "python"; "arguments" := "print(1" ]}) =
  Agent.fix_run_python Agent.read_json
    {[ "name" := "python"; "arguments" := "print(1" ]}.
Proof.
  refine (proj2 (proj2 (proj2 (fix_run_python_idempotent Agent.read_json
                          {[ "name" := "python"; "arguments" := "print(1" ]})))
            _).
  vm_compute. reflexivity.
Defined.
